(** * BRIN-Fenologi-Padi: the model loader and the classification scripts

    A shallow embedding of [model_loader_utils.py] and of the parts of
    [rice_classification_optimized.py] and
    [rice_classification_with_existing_model.py] that decide how a model is
    loaded, checked, re-created on Earth Engine and applied.

    The Python side is embedded with explicit values, an output log and
    exceptions; everything that runs outside the repository (the pickle and
    joblib readers, the Earth Engine training call, the random column, the
    classifier itself, the text and date functions of the platform) is a
    variable of a section.

    Four facts of the libraries decide what the code does and are fixed in
    the embedding: [ee.Classifier.smileRandomForest] has no parameter
    [maxDepth]; [tolist()] is a method of numpy arrays and not of lists or
    scalars; [Map.layers] of the map widget is a tuple, which has no method
    [keys]; the value of a date picker is [None] once it is cleared. *)

From Stdlib Require Import QArith Ascii String.
From stdpp Require Import gmap strings list fin_maps pretty.

Local Open Scope string_scope.
Local Open Scope list_scope.
Local Open Scope Z_scope.

(** ** Python values *)

(** Scalars found in the attributes of a loaded estimator. *)
Inductive pyatom :=
  | PyNone
  | PyInt (n : Z)
  | PyStr (s : string).

(** A value stored in the information dictionary: a scalar, or the list that
    [ndarray.tolist()] returns. *)
Inductive pyval :=
  | PyAtom (a : pyatom)
  | PyList (l : list pyatom).

Coercion PyAtom : pyatom >-> pyval.

#[global] Instance pyatom_eq_dec : EqDecision pyatom.
Proof. solve_decision. Defined.

#[global] Instance pyval_eq_dec : EqDecision pyval.
Proof. solve_decision. Defined.

Definition pyatom_encode (a : pyatom) : unit + (Z + string) :=
  match a with
  | PyNone => inl tt
  | PyInt n => inr (inl n)
  | PyStr s => inr (inr s)
  end.

Definition pyatom_decode (x : unit + (Z + string)) : pyatom :=
  match x with
  | inl _ => PyNone
  | inr (inl n) => PyInt n
  | inr (inr s) => PyStr s
  end.

#[global] Instance pyatom_countable : Countable pyatom.
Proof.
  apply (inj_countable' pyatom_encode pyatom_decode).
  intros []; reflexivity.
Defined.

(** Python truth value of a scalar, as tested by [if max_depth:]. *)
Definition truthy (a : pyatom) : bool :=
  match a with
  | PyNone => false
  | PyInt n => negb (n =? 0)
  | PyStr s => negb (String.eqb s "")
  end.

(** [x != n] for an attribute value [x] and a Python int [n]. *)
Definition py_ne_int (x : pyval) (n : Z) : bool :=
  match x with
  | PyAtom (PyInt m) => negb (m =? n)
  | _ => true
  end.

(** ** Exceptions and results *)

Record exn := Exn { exn_class : string; exn_text : string }.

Inductive result (A : Type) :=
  | Ok (a : A)
  | Raise (e : exn).
Arguments Ok {A} a.
Arguments Raise {A} e.

(** [AttributeError: 'T' object has no attribute 'a']. *)
Definition attribute_error (type attribute : string) : exn :=
  Exn "AttributeError"
      ("'" ++ type ++ "' object has no attribute '" ++ attribute ++ "'").

(** What an attribute of a deserialized object may hold: a scalar, a Python
    list, or a numpy array of scalars. *)
#[warnings="-register-all"] Inductive pyattr :=
  | AttrAtom (a : pyatom)
  | AttrList (items : list pyattr)
  | AttrArray (items : list pyatom).

Definition type_of_atom (a : pyatom) : string :=
  match a with
  | PyNone => "NoneType"
  | PyInt _ => "int"
  | PyStr _ => "str"
  end.

Definition type_of_attr (v : pyattr) : string :=
  match v with
  | AttrAtom a => type_of_atom a
  | AttrList _ => "list"
  | AttrArray _ => "numpy.ndarray"
  end.

(** [v.tolist()]: a method of numpy arrays; a list or a scalar has none. *)
Definition tolist (v : pyattr) : result pyval :=
  match v with
  | AttrArray items => Ok (PyList items)
  | _ => Raise (attribute_error (type_of_attr v) "tolist")
  end.

(** [set(x)]: defined on lists, a [TypeError] on a scalar that is not
    iterable (a [str] iterates over its characters, which are not needed
    here and are treated the same way). *)
Definition py_set (x : pyval) : option (gset pyatom) :=
  match x with
  | PyList l => Some (list_to_set l)
  | PyAtom _ => None
  end.

(** ** The loaded object

    What the loader probes on the deserialized object: its type, whether it
    is an instance of [sklearn.ensemble.RandomForestClassifier], and five
    attributes, each present or not ([hasattr]).  [feature_names_in_] is a
    numpy array on a fitted estimator, and so is [classes_] unless the forest
    has several outputs, where it is a list of arrays; another pickled object
    may hold anything there.  Python's [None] is not such an object: a
    reader that yields it is modelled by [None] of the option type. *)
Record py_object := {
  type_name : string;                        (* type(o).__name__ *)
  type_str : string;                         (* str(type(o)) *)
  is_RandomForestClassifier : bool;          (* isinstance(o, RandomForestClassifier) *)
  n_estimators : option pyatom;
  max_depth : option pyatom;
  n_features_in_ : option pyatom;
  feature_names_in_ : option pyattr;
  classes_ : option pyattr
}.

(** [getattr(o, name, default)]. *)
Definition getattr (field : option pyatom) (default : pyatom) : pyatom :=
  match field with
  | Some v => v
  | None => default
  end.

(** ** Earth Engine objects built on the client *)

Inductive eeval :=
  | EEInt (n : Z)
  | EEFloat (q : Q)
  | EEStr (s : string).

(** A row of a feature table: its properties. *)
Definition table := list (gmap string eeval).

(** The classifier [ee.Classifier.smileRandomForest] builds, and the
    classifier after [.train(features, classProperty, inputProperties)]. *)
Inductive ee_classifier :=
  | smileRandomForest (numberOfTrees : pyatom)
  | Trained (c : ee_classifier) (features : table)
            (classProperty : string) (inputProperties : list string).

(** The parameters of [ee.Classifier.smileRandomForest] in the Earth Engine
    API; the depth of the trees is not among them. *)
Definition smileRandomForest_parameters : list string :=
  ["numberOfTrees"; "variablesPerSplit"; "minLeafPopulation"; "bagFraction";
   "maxNodes"; "seed"].

Definition unexpected_keyword (name : string) : exn :=
  Exn "TypeError"
      ("smileRandomForest() got an unexpected keyword argument '" ++ name
         ++ "'").

Definition missing_numberOfTrees : exn :=
  Exn "TypeError"
      "smileRandomForest() missing 1 required positional argument: 'numberOfTrees'".

Definition keyword (name : string) (kwargs : list (string * pyatom))
  : option pyatom :=
  snd <$> List.find (fun kv => String.eqb kv.1 name) kwargs.

(** A call of [ee.Classifier.smileRandomForest] with positional and keyword
    arguments: a keyword that is not a parameter is refused; [numberOfTrees]
    is the first positional argument or the keyword of that name.  The code
    passes one positional argument or keywords only, and never the other
    parameters, which keep their defaults. *)
Definition Classifier_smileRandomForest (args : list pyatom)
    (kwargs : list (string * pyatom)) : result ee_classifier :=
  match List.find (fun kv => bool_decide (kv.1 ∉ smileRandomForest_parameters))
                  kwargs with
  | Some kv => Raise (unexpected_keyword kv.1)
  | None =>
      match args, keyword "numberOfTrees" kwargs with
      | n :: _, _ => Ok (smileRandomForest n)
      | [], Some n => Ok (smileRandomForest n)
      | [], None => Raise missing_numberOfTrees
      end
  end.

(** One constructor per [print] of the modelled code, with the values the
    f-string interpolates. *)
Inductive message :=
  | MsgLoadedPickle (path : string)
  | MsgLoadedJoblib (path : string)
  | MsgPickleFailed (e : exn)
  | MsgJoblibFailed (e : exn)
  | MsgNotLoaded
  | MsgModelInfo (info : option (gmap string pyval))
  | MsgCreatingForest (n_trees : pyatom)
  | MsgMaxDepth (d : pyatom)
  | MsgUnsupportedType (t : pyval)
  | MsgUsingDefaultForest
  | MsgEETrained
  | MsgEETrainError (e : exn)
  | MsgFeatureCountWarning (expected : pyval) (actual : Z)
  | MsgFeatureNamesWarning
  | MsgModelFeatures (s : gset pyatom)
  | MsgSelectedBands (s : gset pyatom)
  | MsgCompatible
  | MsgContinueDespiteWarning
  | MsgCreatingFallback (n_trees : Z)
  | MsgFallbackAccuracy (acc : Q)
  | MsgFallbackNoAccuracy
  | MsgLoadingWithLoader
  | MsgConverted
  | MsgEECreateFailed
  | MsgIncompatibleUseFallback
  | MsgUsingFallback
  | MsgFallbackCreated
  | MsgLayersCleared
  | MsgLoadedFrom (path : string)
  | MsgTreeCount (n_trees : pyatom)
  | MsgSameParameters
  | MsgNotStandardForest
  | MsgFileNotFound (path : string)
  | MsgLoadError (e : exn)
  | MsgTrainingNewFallback
  | MsgFallbackTrained
  | MsgAccuracy (acc : Q).

(** ** The monad of the Python code: an output log and exceptions *)

Definition Py (A : Type) : Type := list message -> result A * list message.

Definition ret {A} (a : A) : Py A := fun out => (Ok a, out).

Definition bind {A B} (c : Py A) (k : A -> Py B) : Py B :=
  fun out =>
    match c out with
    | (Ok a, out') => k a out'
    | (Raise e, out') => (Raise e, out')
    end.

Definition print (m : message) : Py unit := fun out => (Ok tt, out ++ [m]).

Definition raise {A} (e : exn) : Py A := fun out => (Raise e, out).

(** Lift a call into the outside world. *)
Definition call {A} (r : result A) : Py A := fun out => (r, out).

(** [try: c  except Exception as e: h e]. *)
Definition try_except {A} (c : Py A) (h : exn -> Py A) : Py A :=
  fun out =>
    match c out with
    | (Ok a, out') => (Ok a, out')
    | (Raise e, out') => h e out'
    end.

Declare Scope py_scope.
Delimit Scope py_scope with py.
Notation "x <- c ;; k" := (bind c (fun x => k))
  (at level 20, c at level 99, k at level 200, only parsing) : py_scope.
Notation "c ;; k" := (bind c (fun _ => k))
  (at level 100, k at level 200, right associativity, only parsing) : py_scope.
Notation "'when' b 'then' c" := (if b then c else ret tt)
  (at level 99, b at level 9, c at level 99, only parsing) : py_scope.
Local Open Scope py_scope.

(** ** class ModelLoader *)

Record ModelLoader := {
  model_path : string;
  bands_selected : list string;
  loaded_model : option py_object;     (* None is Python's None *)
  ee_model : option ee_classifier
}.

(** [ModelLoader.__init__]. *)
Definition init (model_path : string) (bands_selected : list string)
  : ModelLoader :=
  {| model_path := model_path; bands_selected := bands_selected;
     loaded_model := None; ee_model := None |}.

Definition set_loaded_model (self : ModelLoader) (v : option py_object)
  : ModelLoader :=
  {| model_path := model_path self; bands_selected := bands_selected self;
     loaded_model := v; ee_model := ee_model self |}.

Definition set_ee_model (self : ModelLoader) (c : ee_classifier)
  : ModelLoader :=
  {| model_path := model_path self; bands_selected := bands_selected self;
     loaded_model := loaded_model self; ee_model := Some c |}.

(** [if hasattr(o, attr): info[key] = o.attr]; [conv] injects the value
    into the values of the dictionary. *)
Definition add_if {A} (key : string) (field : option A) (conv : A -> pyval)
    (info : gmap string pyval) : gmap string pyval :=
  match field with
  | Some v => <[key := conv v]> info
  | None => info
  end.

(** [if hasattr(o, attr): info[key] = o.attr.tolist()]. *)
Definition add_tolist (key : string) (field : option pyattr)
    (info : gmap string pyval) : result (gmap string pyval) :=
  match field with
  | Some v =>
      match tolist v with
      | Ok l => Ok (<[key := l]> info)
      | Raise e => Raise e
      end
  | None => Ok info
  end.

(** [ModelLoader.get_model_info]: [None] without a model, else the
    dictionary built by attribute probing; the exception of [tolist()]
    leaves the method. *)
Definition get_model_info (self : ModelLoader)
  : result (option (gmap string pyval)) :=
  match loaded_model self with
  | None => Ok None
  | Some o =>
      let info : gmap string pyval :=
        <["model_class" := PyAtom (PyStr (type_str o))]>
          (<["model_type" := PyAtom (PyStr (type_name o))]> ∅) in
      let info := add_if "n_estimators" (n_estimators o) PyAtom info in
      let info := add_if "max_depth" (max_depth o) PyAtom info in
      let info := add_if "n_features" (n_features_in_ o) PyAtom info in
      match add_tolist "feature_names" (feature_names_in_ o) info with
      | Raise e => Raise e
      | Ok info =>
          match add_tolist "classes" (classes_ o) info with
          | Raise e => Raise e
          | Ok info => Ok (Some info)
          end
      end
  end.

Notation "' p <- c ;; k" := (bind c (fun x => match x with p => k end))
  (at level 20, p pattern, c at level 99, k at level 200, only parsing)
  : py_scope.

(** [d[key]] on the value returned by [get_model_info]: a [TypeError] on
    [None], a [KeyError] when the key is absent. *)
Definition getitem (d : option (gmap string pyval)) (key : string)
  : Py pyval :=
  match d with
  | None => raise (Exn "TypeError" "'NoneType' object is not subscriptable")
  | Some d =>
      match d !! key with
      | Some v => ret v
      | None => raise (Exn "KeyError" key)
      end
  end.

(** [key in d]: a [TypeError] on [None]. *)
Definition contains (d : option (gmap string pyval)) (key : string)
  : Py bool :=
  match d with
  | None => raise (Exn "TypeError" "argument of type 'NoneType' is not iterable")
  | Some d => ret (bool_decide (is_Some (d !! key)))
  end.

(** [set(x)] inside the monad. *)
Definition set_of (x : pyval) : Py (gset pyatom) :=
  match py_set x with
  | Some s => ret s
  | None => raise (Exn "TypeError" "object is not iterable")
  end.

(** ** Feature tables on Earth Engine *)

Definition ee_number (v : eeval) : option Q :=
  match v with
  | EEInt n => Some (inject_Z n)
  | EEFloat q => Some q
  | EEStr _ => None
  end.

(** [ee.Filter.lt(name, value)] and [ee.Filter.gte(name, value)] on one row;
    a row without a number under [name] passes neither. *)
Definition Filter_lt (name : string) (value : Q) (row : gmap string eeval)
  : bool :=
  match row !! name ≫= ee_number with
  | Some x => negb (Qle_bool value x)
  | None => false
  end.

Definition Filter_gte (name : string) (value : Q) (row : gmap string eeval)
  : bool :=
  match row !! name ≫= ee_number with
  | Some x => Qle_bool value x
  | None => false
  end.

(** The literal [0.8] of the split.  The random column holds doubles, and no
    double lies between 4/5 and the double nearest to it, so comparing with
    the rational 4/5 selects the same rows. *)
Definition split_threshold : Q := 8 # 10.

(** ** Configuration of the scripts *)

Definition BANDS_SELECTED : list string :=
  ["API"; "NDPI"; "RPI"; "RVI"; "VH_int"; "VV_int"; "angle"].

Definition MODEL_PATH : string := "/content/rf_model.pkl".

Section World.

(** [open(path, 'rb')] followed by [pickle.load], and [joblib.load]: the
    object read from the model file ([None] when the file holds Python's
    [None]), or the exception raised. *)
Variable pickle_load : string -> result (option py_object).
Variable joblib_load : string -> result (option py_object).

(** The exception, if any, that [classifier.train(...)] raises. *)
Variable train_error : ee_classifier -> table -> option exn.

(** The value [randomColumn] gives to a row, from the seed, the position
    of the row and the row. *)
Variable random_value : Z -> nat -> gmap string eeval -> Q.

(** [test_set.classify(model).errorMatrix(...).accuracy().getInfo()]. *)
Variable test_accuracy : table -> ee_classifier -> result Q.

Definition train (c : ee_classifier) (features : table)
    (classProperty : string) (inputProperties : list string)
  : result ee_classifier :=
  match train_error c features with
  | Some e => Raise e
  | None => Ok (Trained c features classProperty inputProperties)
  end.

Definition randomColumn (t : table) (name : string) (seed : Z) : table :=
  imap (fun i row => <[name := EEFloat (random_value seed i row)]> row) t.

(** *** ModelLoader.load_model *)
Definition load_model (self : ModelLoader) : Py (bool * ModelLoader) :=
  try_except
    (o <- call (pickle_load (model_path self));;
     print (MsgLoadedPickle (model_path self));;
     ret (true, set_loaded_model self o))
    (fun e1 =>
       try_except
         (o <- call (joblib_load (model_path self));;
          print (MsgLoadedJoblib (model_path self));;
          ret (true, set_loaded_model self o))
         (fun e2 =>
            print (MsgPickleFailed e1);;
            print (MsgJoblibFailed e2);;
            ret (false, self))).

(** *** ModelLoader.create_ee_model *)
Definition create_ee_model (self : ModelLoader) (training_data : table)
  : Py (option ee_classifier * ModelLoader) :=
  match loaded_model self with
  | None => print MsgNotLoaded;; ret (None, self)
  | Some o =>
      model_info <- call (get_model_info self);;
      print (MsgModelInfo model_info);;
      c <- (if is_RandomForestClassifier o then
              let n_trees := getattr (n_estimators o) (PyInt 100) in
              let max_depth := getattr (max_depth o) PyNone in
              print (MsgCreatingForest n_trees);;
              (when (truthy max_depth) then print (MsgMaxDepth max_depth));;
              if truthy max_depth
              then call (Classifier_smileRandomForest []
                           [("numberOfTrees", n_trees);
                            ("maxDepth", max_depth)])
              else call (Classifier_smileRandomForest []
                           [("numberOfTrees", n_trees)])
            else
              t <- getitem model_info "model_type";;
              print (MsgUnsupportedType t);;
              print MsgUsingDefaultForest;;
              call (Classifier_smileRandomForest [PyInt 100] []));;
      let self := set_ee_model self c in
      try_except
        (m <- call (train c training_data "FaseNumerik"
                      (bands_selected self));;
         let self := set_ee_model self m in
         print MsgEETrained;;
         ret (Some m, self))
        (fun e => print (MsgEETrainError e);; ret (None, self))
  end.

(** *** ModelLoader.validate_model_compatibility *)
Definition validate_model_compatibility (self : ModelLoader) : Py bool :=
  match loaded_model self with
  | None => ret false
  | Some _ =>
      model_info <- call (get_model_info self);;
      has_count <- contains model_info "n_features";;
      count_ok <-
        (if has_count then
           expected_features <- getitem model_info "n_features";;
           let actual_features :=
             Z.of_nat (length (bands_selected self)) in
           if py_ne_int expected_features actual_features then
             print (MsgFeatureCountWarning expected_features
                      actual_features);;
             ret false
           else ret true
         else ret true);;
      if negb count_ok then ret false else
      has_names <- contains model_info "feature_names";;
      names_ok <-
        (if has_names then
           names <- getitem model_info "feature_names";;
           model_features <- set_of names;;
           let selected_features : gset pyatom :=
             list_to_set (PyStr <$> bands_selected self) in
           if bool_decide (model_features ≠ selected_features) then
             print MsgFeatureNamesWarning;;
             print (MsgModelFeatures model_features);;
             print (MsgSelectedBands selected_features);;
             ret false
           else ret true
         else ret true);;
      if negb names_ok then ret false else
      print MsgCompatible;;
      ret true
  end.

(** *** load_and_create_ee_model *)
Definition load_and_create_ee_model (model_path : string)
    (bands_selected : list string) (training_data : table)
  : Py (option py_object * option ee_classifier) :=
  let loader := init model_path bands_selected in
  '(loaded, loader) <- load_model loader;;
  if negb loaded then ret (None, None) else
  compatible <- validate_model_compatibility loader;;
  (when (negb compatible) then print MsgContinueDespiteWarning);;
  '(ee_model, loader) <- create_ee_model loader training_data;;
  ret (loaded_model loader, ee_model).

(** *** create_fallback_model *)
Definition fallback_data_acak (training_data : table) : table :=
  randomColumn training_data "random" 42.

Definition fallback_train_set (training_data : table) : table :=
  List.filter (Filter_lt "random" split_threshold)
              (fallback_data_acak training_data).

Definition fallback_test_set (training_data : table) : table :=
  List.filter (Filter_gte "random" split_threshold)
              (fallback_data_acak training_data).

Definition create_fallback_model (training_data : table)
    (bands_selected : list string) (n_trees : Z) : Py ee_classifier :=
  print (MsgCreatingFallback n_trees);;
  let train_set := fallback_train_set training_data in
  let test_set := fallback_test_set training_data in
  c <- call (Classifier_smileRandomForest [PyInt n_trees] []);;
  model <- call (train c train_set "FaseNumerik" bands_selected);;
  try_except
    (acc <- call (test_accuracy test_set model);;
     print (MsgFallbackAccuracy acc))
    (fun _ => print MsgFallbackNoAccuracy);;
  ret model.

(** The classifier the fallback trains. *)
Definition fallback_forest (data : table) (bands : list string)
    (n_trees : Z) : ee_classifier :=
  Trained (smileRandomForest (PyInt n_trees))
          (fallback_train_set data) "FaseNumerik" bands.

(** What the fallback prints after training. *)
Definition fallback_report (data : table) (bands : list string)
    (n_trees : Z) : message :=
  match test_accuracy (fallback_test_set data)
                      (fallback_forest data bands n_trees)
  with
  | Ok acc => MsgFallbackAccuracy acc
  | Raise _ => MsgFallbackNoAccuracy
  end.

(** *** rice_classification_optimized.py, section 6: load or fall back

    Returns the final values of [model], [loaded_successfully] and
    [model_loader]. *)
Definition muat_model (data_latih : table)
  : Py (option ee_classifier * bool * ModelLoader) :=
  print MsgLoadingWithLoader;;
  let model_loader := init MODEL_PATH BANDS_SELECTED in
  '(loaded, model_loader) <- load_model model_loader;;
  '(model, loaded_successfully, model_loader) <-
    (if loaded then
       compatible <- validate_model_compatibility model_loader;;
       if compatible then
         '(model, model_loader) <- create_ee_model model_loader data_latih;;
         match model with
         | Some _ => print MsgConverted;; ret (model, true, model_loader)
         | None => print MsgEECreateFailed;; ret (model, false, model_loader)
         end
       else
         print MsgIncompatibleUseFallback;;
         ret (None, false, model_loader)
     else ret (None, false, model_loader));;
  if negb loaded_successfully then
    print MsgUsingFallback;;
    m <- create_fallback_model data_latih BANDS_SELECTED 200;;
    print MsgFallbackCreated;;
    ret (Some m, loaded_successfully, model_loader)
  else ret (model, loaded_successfully, model_loader).

(** *** rice_classification_with_existing_model.py, section 5

    The table [data_latih] is the same expression wherever the script
    builds it.  In the [else] branch the name is read before any assignment,
    which raises [NameError]; the two handlers differ by their first
    message only. *)
Definition muat_model_yang_sudah_ada (data_latih : table)
  : Py ee_classifier :=
  let latih_fallback (first : message) : Py ee_classifier :=
    print first;;
    print MsgTrainingNewFallback;;
    c <- call (Classifier_smileRandomForest [PyInt 200] []);;
    model <- call (train c (fallback_train_set data_latih)
                     "FaseNumerik" BANDS_SELECTED);;
    print MsgFallbackTrained;;
    acc <- call (test_accuracy (fallback_test_set data_latih) model);;
    print (MsgAccuracy acc);;
    ret model in
  try_except
    (loaded_model <- call (pickle_load MODEL_PATH);;
     print (MsgLoadedFrom MODEL_PATH);;
     match loaded_model ≫= n_estimators with
     | Some n_trees =>
         print (MsgTreeCount n_trees);;
         c <- call (Classifier_smileRandomForest [n_trees] []);;
         model <- call (train c data_latih "FaseNumerik" BANDS_SELECTED);;
         print MsgSameParameters;;
         ret model
     | None =>
         print MsgNotStandardForest;;
         c <- call (Classifier_smileRandomForest [PyInt 200] []);;
         raise (Exn "NameError" "name 'data_latih' is not defined")
     end)
    (fun e =>
       if String.eqb (exn_class e) "FileNotFoundError"
       then latih_fallback (MsgFileNotFound MODEL_PATH)
       else latih_fallback (MsgLoadError e)).

End World.

(** ** Labels: konversi_label_numerik *)

Record Feature := {
  geometry : Q * Q;
  properties : gmap string eeval
}.

Definition Feature_set (f : Feature) (key : string) (v : eeval) : Feature :=
  {| geometry := geometry f; properties := <[key := v]> (properties f) |}.

(** [ee.String(feature.get(key))]: the computation fails ([None]) when the
    property is absent or is not text. *)
Definition get_String (f : Feature) (key : string) : option string :=
  match properties f !! key with
  | Some (EEStr s) => Some s
  | _ => None
  end.

(** The nested [ee.Algorithms.If] of the source. *)
Definition fase_numerik (fase_string : string) : Z :=
  if String.eqb fase_string "vegetatif 1" then 1
  else if String.eqb fase_string "vegetatif 2" then 2
  else if String.eqb fase_string "generatif" then 3
  else if String.eqb fase_string "panen" then 4
  else if String.eqb fase_string "bera" then 5
  else 0.

Section Labels.

(** [ee.String.toLowerCase] and [ee.String.trim] of the platform. *)
Variable toLowerCase : string -> string.
Variable trim : string -> string.

Definition konversi_label_numerik (feature : Feature) : option Feature :=
  s ← get_String feature "Fase";
  let fase_string := trim (toLowerCase s) in
  Some (Feature_set feature "FaseNumerik" (EEInt (fase_numerik fase_string))).

End Labels.

(** ** Classification of a collection: klasifikasi_collection *)

(** Pixel values of one band. *)
Definition raster := Z -> Z -> option Q.

Record Image := {
  bands : list (string * raster);
  image_properties : gmap string eeval
}.

Definition bandNames (img : Image) : list string := (bands img).*1.

(** [image.rename(names)]: fails unless one name is given per band. *)
Definition Image_rename (names : list string) (img : Image) : option Image :=
  if decide (length names = length (bands img)) then
    Some {| bands := zip names (bands img).*2;
            image_properties := image_properties img |}
  else None.

(** [image.set({k1: v1, k2: v2, ...})]. *)
Definition Image_set (img : Image) (kvs : list (string * eeval)) : Image :=
  {| bands := bands img;
     image_properties :=
       foldl (fun m kv => <[kv.1 := kv.2]> m) (image_properties img) kvs |}.

Section Classification.

(** [image.classify(model)]. *)
Variable classify : Image -> ee_classifier -> Image.

(** [ee.Date(v).format(pattern)]; [None] when [v] is not a date. *)
Variable Date_format : eeval -> string -> option string.

Definition klasifikasi_image (model : ee_classifier) (image : Image)
  : option Image :=
  classified ← Image_rename ["classification"] (classify image model);
  time_start ← image_properties image !! "system:time_start";
  tanggal ← Date_format time_start "YYYY-MM-dd";
  Some (Image_set classified
          [("system:time_start", time_start); ("tanggal", EEStr tanggal)]).

(** [collection.map(klasifikasi_image)]: the collection is computed only
    if every image is. *)
Definition klasifikasi_collection (model : ee_classifier)
    (collection : list Image) : option (list Image) :=
  mapM (klasifikasi_image model) collection.

End Classification.

(** ** The map widget: clear_layers *)

(** Python's [sub in s] on text. *)
Fixpoint str_in (sub s : string) : bool :=
  String.prefix sub s ||
  match s with
  | EmptyString => false
  | String _ s' => str_in sub s'
  end.

(** [Map.layers] of the map widget is a tuple of layer objects; each is
    kept here with its name. *)
Record MapWidget (Layer : Type) := {
  layers : list (string * Layer);      (* Map.layers *)
  output_widget : list message
}.
Arguments layers {Layer} _.
Arguments output_widget {Layer} _.

(** [t.keys()] on a tuple: a tuple has no such method. *)
Definition tuple_keys {A} (t : list A) : result (list string) :=
  Raise (attribute_error "tuple" "keys").

Definition is_temporal_layer (name : string) : bool :=
  str_in "Klasifikasi" name && negb (String.eqb name "Klasifikasi Mean").

Section MapCallbacks.

Context {Layer : Type}.

(** [Map.remove_layer(x)] of the widget library, called with a name: the
    layers afterwards, or the exception raised. *)
Variable Map_remove_layer :
  string -> list (string * Layer) -> result (list (string * Layer)).

(** The loop of [clear_layers] over the names: the layers it reaches, and
    the exception of [Map.remove_layer] that ends it, if any. *)
Fixpoint clear_loop (layer_names : list string) (l : list (string * Layer))
  : result unit * list (string * Layer) :=
  match layer_names with
  | [] => (Ok tt, l)
  | name :: rest =>
      if is_temporal_layer name then
        match Map_remove_layer name l with
        | Ok l' => clear_loop rest l'
        | Raise e => (Raise e, l)
        end
      else clear_loop rest l
  end.

(** [clear_layers]: the output widget is cleared, then [Map.layers.keys()]
    is evaluated; the result is the exception leaving the body of the
    [with] statement, if any, and the widget as the body left it. *)
Definition clear_layers (w : MapWidget Layer)
  : result unit * MapWidget Layer :=
  let w := {| layers := layers w; output_widget := [] |} in
  match tuple_keys (layers w) with
  | Raise e => (Raise e, w)
  | Ok layer_names =>
      match clear_loop layer_names (layers w) with
      | (Raise e, l) => (Raise e, {| layers := l; output_widget := [] |})
      | (Ok _, l) =>
          (Ok tt, {| layers := l; output_widget := [MsgLayersCleared] |})
      end
  end.

End MapCallbacks.

(** * Vocabulary of the statements and sample inputs *)

Definition no_file : exn := Exn "FileNotFoundError" "No such file".
Definition bad_pickle : exn := Exn "UnpicklingError" "invalid load key".

(** The seven bands in another order. *)
Definition bands_reversed : list pyatom :=
  PyStr <$> ["angle"; "VV_int"; "VH_int"; "RVI"; "RPI"; "NDPI"; "API"].

(** A fitted forest of 50 trees with [max_depth=5], trained on the seven
    bands in another order. *)
Definition forest_seven_bands : py_object :=
  {| type_name := "RandomForestClassifier";
     type_str := "<class 'sklearn.ensemble._forest.RandomForestClassifier'>";
     is_RandomForestClassifier := true;
     n_estimators := Some (PyInt 50);
     max_depth := Some (PyInt 5);
     n_features_in_ := Some (PyInt 7);
     feature_names_in_ := Some (AttrArray bands_reversed);
     classes_ := Some (AttrArray (PyInt <$> [1; 2; 3; 4; 5])) |}.

(** The same forest grown without a depth limit ([max_depth=None], the
    default of scikit-learn). *)
Definition forest_unlimited : py_object :=
  {| type_name := "RandomForestClassifier";
     type_str := "<class 'sklearn.ensemble._forest.RandomForestClassifier'>";
     is_RandomForestClassifier := true;
     n_estimators := Some (PyInt 50);
     max_depth := Some PyNone;
     n_features_in_ := Some (PyInt 7);
     feature_names_in_ := Some (AttrArray bands_reversed);
     classes_ := Some (AttrArray (PyInt <$> [1; 2; 3; 4; 5])) |}.

(** A forest fitted on two targets at once: scikit-learn keeps one array of
    classes per target, in a list. *)
Definition forest_two_outputs : py_object :=
  {| type_name := "RandomForestClassifier";
     type_str := "<class 'sklearn.ensemble._forest.RandomForestClassifier'>";
     is_RandomForestClassifier := true;
     n_estimators := Some (PyInt 50);
     max_depth := Some PyNone;
     n_features_in_ := Some (PyInt 7);
     feature_names_in_ := Some (AttrArray bands_reversed);
     classes_ :=
       Some (AttrList [AttrArray (PyInt <$> [1; 2; 3; 4; 5]);
                       AttrArray (PyInt <$> [0; 1])]) |}.

(** A fitted forest trained on three features only. *)
Definition forest_three_features : py_object :=
  {| type_name := "RandomForestClassifier";
     type_str := "<class 'sklearn.ensemble._forest.RandomForestClassifier'>";
     is_RandomForestClassifier := true;
     n_estimators := Some (PyInt 50);
     max_depth := Some PyNone;
     n_features_in_ := Some (PyInt 3);
     feature_names_in_ := None;
     classes_ := None |}.

(** A pickled dictionary: no estimator attribute at all. *)
Definition plain_dict : py_object :=
  {| type_name := "dict";
     type_str := "<class 'dict'>";
     is_RandomForestClassifier := false;
     n_estimators := None;
     max_depth := None;
     n_features_in_ := None;
     feature_names_in_ := None;
     classes_ := None |}.

(** Readers for the examples: a file that holds [None], and a reader that
    cannot read the file. *)
Definition reads_none : string -> result (option py_object) :=
  fun _ => Ok None.

Definition unreadable : string -> result (option py_object) :=
  fun _ => Raise bad_pickle.

Definition loader_with (o : py_object) : ModelLoader :=
  set_loaded_model (init MODEL_PATH BANDS_SELECTED) (Some o).

(** The exception of [tolist()] on an attribute that is present, if any, and
    the exception of [get_model_info] on a loaded object: [feature_names_in_]
    is converted first. *)
Definition tolist_error (field : option pyattr) : option exn :=
  match field with
  | Some v =>
      match tolist v with
      | Raise e => Some e
      | Ok _ => None
      end
  | None => None
  end.

Definition info_error (o : py_object) : option exn :=
  match tolist_error (feature_names_in_ o) with
  | Some e => Some e
  | None => tolist_error (classes_ o)
  end.

(** The items of an attribute that holds an array. *)
Definition array_items (field : option pyattr) : option (list pyatom) :=
  match field with
  | Some (AttrArray items) => Some items
  | _ => None
  end.

Definition info_keys : gset string :=
  {[ "model_type"; "model_class"; "n_estimators"; "max_depth"; "n_features";
     "feature_names"; "classes" ]}.

Definition never_fails : ee_classifier -> table -> option exn :=
  fun _ _ => None.

(** The model exposes a feature count that is not the number of bands. *)
Definition count_mismatch (o : py_object) (bands : list string) : Prop :=
  exists n, n_features_in_ o = Some n /\
            n <> PyInt (Z.of_nat (length bands)).

(** The model exposes feature names whose set is not the set of bands. *)
Definition names_mismatch (o : py_object) (bands : list string) : Prop :=
  exists names, feature_names_in_ o = Some (AttrArray names) /\
    list_to_set names ≠@{gset pyatom} list_to_set (PyStr <$> bands).

(** A world for the examples: no model file, training never fails, the
    random column gives row [i] the value [i/2], the accuracy is 1. *)
Definition half_steps : Z -> nat -> gmap string eeval -> Q :=
  fun _ i _ => Z.of_nat i # 2.

Definition perfect_accuracy : table -> ee_classifier -> result Q :=
  fun _ _ => Ok 1%Q.

Definition three_rows : table :=
  [ {[ "FaseNumerik" := EEInt 1 ]};
    {[ "FaseNumerik" := EEInt 2 ]};
    {[ "FaseNumerik" := EEInt 3 ]} ].

Local Open Scope nat_scope.

(** A reading of [ee.String.toLowerCase] and [ee.String.trim] on the bytes
    of the text, to run the examples: the letters A-Z are shifted and every
    other byte is kept; characters up to the space (code 32) are removed at
    both ends. *)
Definition lower_ascii (c : ascii) : ascii :=
  let n := nat_of_ascii c in
  if (65 <=? n) && (n <=? 90) then ascii_of_nat (n + 32) else c.

Fixpoint toLowerCase_bytes (s : string) : string :=
  match s with
  | EmptyString => EmptyString
  | String c s' => String (lower_ascii c) (toLowerCase_bytes s')
  end.

Definition is_space (c : ascii) : bool := nat_of_ascii c <=? 32.

Fixpoint trim_start (s : string) : string :=
  match s with
  | EmptyString => EmptyString
  | String c s' => if is_space c then trim_start s' else s
  end.

Fixpoint trim_end (s : string) : string :=
  match s with
  | EmptyString => EmptyString
  | String c s' =>
      let r := trim_end s' in
      if is_space c && String.eqb r "" then EmptyString else String c r
  end.

Definition trim_bytes (s : string) : string := trim_end (trim_start s).

Local Close Scope nat_scope.

Definition phase_names : list string :=
  ["vegetatif 1"; "vegetatif 2"; "generatif"; "panen"; "bera"].

Definition titik (fase : string) : Feature :=
  {| geometry := (107 # 1, -(6 # 1))%Q;
     properties := {[ "Fase" := EEStr fase ]} |}.

(** A classifier that labels every pixel 3, and a date format that knows
    the first day of 2024. *)
Definition classify_constant (image : Image) (_ : ee_classifier) : Image :=
  {| bands := [("classification", fun _ _ => Some (3 # 1)%Q)];
     image_properties := image_properties image |}.

Definition format_new_year (v : eeval) (_ : string) : option string :=
  match v with
  | EEInt 1704067200000 => Some "2024-01-01"
  | _ => None
  end.

Definition citra_new_year : Image :=
  {| bands := (fun b => (b, fun _ _ => Some (0 # 1)%Q)) <$> BANDS_SELECTED;
     image_properties := {[ "system:time_start" := EEInt 1704067200000 ]} |}.

(** A map with the base layer, the training points, the mean and two
    temporal layers. *)
Definition peta : MapWidget nat :=
  {| layers :=
       [ ("OpenStreetMap", 0%nat);
         ("Titik Pelatihan", 1%nat);
         ("Klasifikasi Mean", 2%nat);
         ("Klasifikasi 2024-01-01 s.d. 2024-12-31", 3%nat);
         ("Klasifikasi 2024-06-01 s.d. 2024-08-31", 4%nat) ];
     output_widget := [] |}.

(** A [Map.remove_layer] that removes the layers of the given name. *)
Definition remove_by_name {Layer} (name : string)
    (l : list (string * Layer)) : result (list (string * Layer)) :=
  Ok (List.filter (fun kv => negb (String.eqb kv.1 name)) l).

(** ** Vocabulary for the loader as a whole *)

(** The loaded object is a forest whose [max_depth] is truthy: the branch
    of [create_ee_model] that passes [maxDepth]. *)
Definition passes_maxDepth (o : py_object) : bool :=
  is_RandomForestClassifier o && truthy (getattr (max_depth o) PyNone).

(** The classifier [create_ee_model] instantiates for a loaded object on
    the branches that do not pass [maxDepth]. *)
Definition forest_for (o : py_object) : ee_classifier :=
  if is_RandomForestClassifier o then
    smileRandomForest (getattr (n_estimators o) (PyInt 100))
  else smileRandomForest (PyInt 100).

(** What [loaded_model] holds after [load_model], pickle first: [None] when
    both readers raise, and when the file holds [None]. *)
Definition deserialize (pl jl : string -> result (option py_object))
    (path : string) : option py_object :=
  match pl path, jl path with
  | Ok v, _ => v
  | Raise _, Ok v => v
  | Raise _, Raise _ => None
  end.

(** The message of the reader that succeeded. *)
Definition loaded_message (pl : string -> result (option py_object))
    (path : string) : message :=
  match pl path with
  | Ok _ => MsgLoadedPickle path
  | Raise _ => MsgLoadedJoblib path
  end.

(** The two checks of [validate_model_compatibility] on an object. *)
Definition count_matches (o : py_object) (bands : list string) : bool :=
  match n_features_in_ o with
  | Some n => negb (py_ne_int (PyAtom n) (Z.of_nat (length bands)))
  | None => true
  end.

Definition names_match (o : py_object) (bands : list string) : bool :=
  match array_items (feature_names_in_ o) with
  | Some names =>
      bool_decide (list_to_set names =@{gset pyatom}
                   list_to_set (PyStr <$> bands))
  | None => true
  end.

Definition compatible (o : py_object) (bands : list string) : bool :=
  count_matches o bands && names_match o bands.

(** The exception that ends section 6 of the script inside the loader, if
    any: the one of [get_model_info] during the validation, or the one of
    the [maxDepth] call for a compatible forest. *)
Definition loader_error (pl jl : string -> result (option py_object))
  : option exn :=
  match deserialize pl jl MODEL_PATH with
  | Some o =>
      match info_error o with
      | Some e => Some e
      | None =>
          if compatible o BANDS_SELECTED && passes_maxDepth o
          then Some (unexpected_keyword "maxDepth")
          else None
      end
  | None => None
  end.

(** The object section 6 of the script ends up using, if any: deserialized,
    judged compatible, and re-created on Earth Engine without error. *)
Definition usable_model (pl jl : string -> result (option py_object))
    (te : ee_classifier -> table -> option exn) (data_latih : table)
  : option py_object :=
  match deserialize pl jl MODEL_PATH with
  | Some o =>
      match info_error o with
      | None =>
          if compatible o BANDS_SELECTED && negb (passes_maxDepth o)
          then match te (forest_for o) data_latih with
               | None => Some o
               | Some _ => None
               end
          else None
      | Some _ => None
      end
  | None => None
  end.

(** The dictionary [get_model_info] returns for an object whose
    [feature_names_in_] and [classes_] can be converted. *)
Definition info_of (o : py_object) : gmap string pyval :=
  add_if "classes" (array_items (classes_ o)) PyList
    (add_if "feature_names" (array_items (feature_names_in_ o)) PyList
       (add_if "n_features" (n_features_in_ o) PyAtom
          (add_if "max_depth" (max_depth o) PyAtom
             (add_if "n_estimators" (n_estimators o) PyAtom
                (<["model_class" := PyAtom (PyStr (type_str o))]>
                   (<["model_type" := PyAtom (PyStr (type_name o))]> ∅)))))).

(** What [validate_model_compatibility] prints for such an object. *)
Definition names_messages (o : py_object) (bands : list string)
  : list message :=
  match array_items (feature_names_in_ o) with
  | Some names =>
      if bool_decide (list_to_set names =@{gset pyatom}
                      list_to_set (PyStr <$> bands))
      then [MsgCompatible]
      else [MsgFeatureNamesWarning; MsgModelFeatures (list_to_set names);
            MsgSelectedBands (list_to_set (PyStr <$> bands))]
  | None => [MsgCompatible]
  end.

Definition validation_messages (o : py_object) (bands : list string)
  : list message :=
  match n_features_in_ o with
  | Some n =>
      if py_ne_int (PyAtom n) (Z.of_nat (length bands))
      then [MsgFeatureCountWarning (PyAtom n) (Z.of_nat (length bands))]
      else names_messages o bands
  | None => names_messages o bands
  end.

(** What [create_ee_model] prints for such an object before it calls
    [ee.Classifier.smileRandomForest]. *)
Definition creation_messages (o : py_object) : list message :=
  MsgModelInfo (Some (info_of o)) ::
  (if is_RandomForestClassifier o then
     MsgCreatingForest (getattr (n_estimators o) (PyInt 100)) ::
     (if truthy (getattr (max_depth o) PyNone)
      then [MsgMaxDepth (getattr (max_depth o) PyNone)]
      else [])
   else [MsgUnsupportedType (PyAtom (PyStr (type_name o)));
         MsgUsingDefaultForest]).

(** The final [model] and [loaded_successfully] of section 6. *)
Definition script_outcome
    (r : result (option ee_classifier * bool * ModelLoader))
  : result (option ee_classifier * bool) :=
  match r with
  | Ok (model, loaded_successfully, _) => Ok (model, loaded_successfully)
  | Raise e => Raise e
  end.

(** A fitted forest of 120 trees trained on the seven bands in the order
    of the configuration. *)
Definition forest_plain_names : py_object :=
  {| type_name := "RandomForestClassifier";
     type_str := "<class 'sklearn.ensemble._forest.RandomForestClassifier'>";
     is_RandomForestClassifier := true;
     n_estimators := Some (PyInt 120);
     max_depth := Some PyNone;
     n_features_in_ := Some (PyInt 7);
     feature_names_in_ := Some (AttrArray (PyStr <$> BANDS_SELECTED));
     classes_ := Some (AttrArray (PyInt <$> [1; 2; 3; 4; 5])) |}.

Definition always_fails : ee_classifier -> table -> option exn :=
  fun _ _ => Some (Exn "EEException" "Computation timed out.").

Definition no_accuracy : table -> ee_classifier -> result Q :=
  fun _ _ => Raise (Exn "EEException" "No valid training data were found.").


(** ** Vocabulary for the stand-alone script *)

(** The exception of reading [data_latih] before it is assigned. *)
Definition name_error : exn :=
  Exn "NameError" "name 'data_latih' is not defined".

(** The first message of the handler that catches [e]. *)
Definition handler_message (e : exn) : message :=
  if String.eqb (exn_class e) "FileNotFoundError"
  then MsgFileNotFound MODEL_PATH
  else MsgLoadError e.

(** The classifier the [try] block of the stand-alone script ends with, if
    it ends at all. *)
Definition recreated_forest (pl : string -> result (option py_object))
    (te : ee_classifier -> table -> option exn) (data_latih : table)
  : option ee_classifier :=
  match pl MODEL_PATH with
  | Ok v =>
      match v ≫= n_estimators with
      | Some n =>
          match te (smileRandomForest n) data_latih with
          | None =>
              Some (Trained (smileRandomForest n) data_latih
                      "FaseNumerik" BANDS_SELECTED)
          | Some _ => None
          end
      | None => None
      end
  | Raise _ => None
  end.


(** ** Vocabulary for the labels and the collections *)

(** The class names of the scripts, by code. *)
Definition LABEL : list string :=
  ["Unknown"; "Vegetatif 1"; "Vegetatif 2"; "Generatif"; "Panen"; "Bera"].

(** [collection.filterDate(start, end)] keeps the images whose
    ['system:time_start'] falls in the range; [keep] is that test on the
    property, and an image without the property is dropped. *)
Definition filter_by_time (keep : eeval -> bool) (collection : list Image)
  : list Image :=
  List.filter
    (fun image =>
       match image_properties image !! "system:time_start" with
       | Some t => keep t
       | None => false
       end)
    collection.

(** A feature that already carries a numeric label. *)
Definition titik_berlabel : Feature :=
  {| geometry := (107 # 1, -(6 # 1))%Q;
     properties := {[ "Fase" := EEStr "Bera"; "FaseNumerik" := EEInt 9;
                      "id" := EEInt 17 ]} |}.

Definition citra_mid_year : Image :=
  {| bands := (fun b => (b, fun _ _ => Some (0 # 1)%Q)) <$> BANDS_SELECTED;
     image_properties := {[ "system:time_start" := EEInt 1719792000000 ]} |}.

Definition format_two_dates (v : eeval) (_ : string) : option string :=
  match v with
  | EEInt 1704067200000 => Some "2024-01-01"
  | EEInt 1719792000000 => Some "2024-07-01"
  | _ => None
  end.

(** Timestamps before 1 March 2024. *)
Definition before_march (t : eeval) : bool :=
  match t with
  | EEInt ms => ms <? 1709251200000
  | _ => false
  end.


(** * The interactive layer of rice_classification_optimized.py *)

Definition PALET : list string :=
  ["#FF0000"; "#00FF00"; "#0000FF"; "#8B4513"; "#FFFF00"].

(** The value of a date picker. *)
Record datetime := { year : Z; month : Z; day : Z }.

(** [vis_params]. *)
Record vis := { vis_min : Z; vis_max : Z; palette : list string }.

(** What [Map.addLayer] is given in the script. *)
Inductive map_layer :=
  | FeatureLayer (color : string)
  | MeanLayer (images : list Image) (vis_params : vis)
  | BaseLayer (name : string).

(** The configuration of an export to Drive. *)
Record export_config := {
  export_images : list Image;       (* the image is their mean *)
  description : string;
  folder : string;
  scale : Z;
  export_crs : string;
  fileFormat : option string
}.

(** The dictionary returned by the analysis functions.  [image_count] holds
    whatever the variable [count] holds at the [return]. *)
Record analysis := {
  period : string;
  image_count : Q;
  statistics : gmap string (option Q);
  histogram : gmap string (option (gmap string (list Q)))
}.

(** One constructor per [print] of the interactive layer, with the values
    the f-string interpolates; [UiPrinted] carries a message of the code
    modelled above. *)
Inductive ui_message :=
  | UiPrinted (m : message)
  | UiLayerReady
  | UiEmptyCollection
  | UiLayerAdded (layer_name : string)
  | UiImageCount (n : Z)
  | UiMeanClass (avg_class : Q)
  | UiNoImages (start_date end_date : string)
  | UiError (e : exn)
  | UiAnalysisHeader (start_date end_date : string)
  | UiRule (width : Z)
  | UiStatisticsHeader
  | UiStatMean (v : Q)
  | UiStatStdDev (v : Q)
  | UiStatMin (v : Q)
  | UiStatMax (v : Q)
  | UiDistributionHeader
  | UiClassCount (class_name : string) (count : Q)
  | UiNoData (start_date end_date : string)
  | UiAnalysisError (e : exn)
  | UiExportHeader
  | UiNothingToExport (start_date end_date : string)
  | UiExportStarted
  | UiExportBegun (description : string)
  | UiExportFolder (folder : string)
  | UiExportFilename (filename : string)
  | UiExportScale (scale : Z)
  | UiExportStatus (status : string)
  | UiCheckDrive
  | UiExportError (e : exn).

(** The state the callbacks and helpers act on: the layers of the map, the
    content of the output widget, the standard output, and the export
    tasks started on the platform. *)
Record UiState := {
  Map_layers : gmap string map_layer;
  widget_lines : list ui_message;
  stdout : list ui_message;
  started_tasks : list export_config
}.

(** The globals the callbacks read; [vis_params] is [None] while the name is
    unbound. *)
Record Globals := {
  hasil_klasifikasi : list Image;
  vis_params : option vis
}.

(** A state monad with exceptions over [UiState]. *)
Definition Ui (A : Type) : Type := UiState -> result A * UiState.

Definition ui_ret {A} (a : A) : Ui A := fun st => (Ok a, st).

Definition ui_bind {A B} (c : Ui A) (k : A -> Ui B) : Ui B :=
  fun st =>
    match c st with
    | (Ok a, st') => k a st'
    | (Raise e, st') => (Raise e, st')
    end.

Definition ui_raise {A} (e : exn) : Ui A := fun st => (Raise e, st).

Definition ui_call {A} (r : result A) : Ui A := fun st => (r, st).

(** [try: c  except Exception as e: h e]: the state changes made before the
    exception are kept. *)
Definition ui_try {A} (c : Ui A) (h : exn -> Ui A) : Ui A :=
  fun st =>
    match c st with
    | (Ok a, st') => (Ok a, st')
    | (Raise e, st') => h e st'
    end.

(** [print] inside [with output_widget:]. *)
Definition widget_print (m : ui_message) : Ui unit :=
  fun st =>
    (Ok tt, {| Map_layers := Map_layers st;
               widget_lines := widget_lines st ++ [m];
               stdout := stdout st;
               started_tasks := started_tasks st |}).

(** [output_widget.clear_output()]. *)
Definition clear_output : Ui unit :=
  fun st =>
    (Ok tt, {| Map_layers := Map_layers st;
               widget_lines := [];
               stdout := stdout st;
               started_tasks := started_tasks st |}).

(** [print] outside the widget. *)
Definition ui_print (m : ui_message) : Ui unit :=
  fun st =>
    (Ok tt, {| Map_layers := Map_layers st;
               widget_lines := widget_lines st;
               stdout := stdout st ++ [m];
               started_tasks := started_tasks st |}).

(** [Map.addLayer(object, vis_params, name)]. *)
Definition addLayer (layer : map_layer) (name : string) : Ui unit :=
  fun st =>
    (Ok tt, {| Map_layers := <[name := layer]> (Map_layers st);
               widget_lines := widget_lines st;
               stdout := stdout st;
               started_tasks := started_tasks st |}).

(** Reading a global name: [NameError] while it is unbound. *)
Definition read_global {A} (name : string) (v : option A) : Ui A :=
  match v with
  | Some a => ui_ret a
  | None =>
      ui_raise (Exn "NameError" ("name '" ++ name ++ "' is not defined"))
  end.

(** ['{:.2f}'.format(v)] and the like: a [TypeError] on [None]. *)
Definition format_float (v : option Q) : Ui Q :=
  match v with
  | Some q => ui_ret q
  | None =>
      ui_raise (Exn "TypeError"
                  "unsupported format string passed to NoneType.__format__")
  end.

Declare Scope ui_scope.
Delimit Scope ui_scope with ui.
Notation "x <- c ;; k" := (ui_bind c (fun x => k))
  (at level 20, c at level 99, k at level 200, only parsing) : ui_scope.
Notation "c ;; k" := (ui_bind c (fun _ => k))
  (at level 100, k at level 200, right associativity, only parsing)
  : ui_scope.
Local Open Scope ui_scope.

(** Truth value of a number that may be [None]. *)
Definition truthy_number (v : option Q) : bool :=
  match v with
  | Some q => negb (Qeq_bool q 0)
  | None => false
  end.

Section Interactive.

(** [value.strftime('%Y-%m-%d')] on a date. *)
Variable strftime : datetime -> string.

(** [Map.remove_layer(x)] of the widget library, called with a name. *)
Variable Map_remove_layer :
  string -> list (string * map_layer) -> result (list (string * map_layer)).

(** [collection.filterDate(start, end)]. *)
Variable filterDate : list Image -> string -> string -> list Image.

(** [collection.size().getInfo()]. *)
Variable size_getInfo : list Image -> result Z.

(** [collection.mean().reduceRegion(ee.Reducer.mean(), ...).getInfo()]; a
    band without valid pixels comes back as [None]. *)
Variable mean_getInfo : list Image -> result (gmap string (option Q)).

(** *** Section 8: the map *)
Definition siapkan_peta (basemap : gmap string map_layer)
    (hasil : list Image) (collection_size : Z) : UiState * Globals :=
  let layers := <["Titik Pelatihan" := FeatureLayer "red"]> basemap in
  if 0 <? collection_size then
    let vis_params :=
      {| vis_min := 1; vis_max := 5; palette := PALET |} in
    ({| Map_layers :=
          <["Klasifikasi Mean" := MeanLayer hasil vis_params]> layers;
        widget_lines := [];
        stdout := [UiLayerReady];
        started_tasks := [] |},
     {| hasil_klasifikasi := hasil; vis_params := Some vis_params |})
  else
    ({| Map_layers := layers;
        widget_lines := [];
        stdout := [UiEmptyCollection];
        started_tasks := [] |},
     {| hasil_klasifikasi := hasil; vis_params := None |}).

(** *** tampilkan_klasifikasi *)
Definition layer_name_of (start_date end_date : string) : string :=
  ("Klasifikasi " ++ start_date ++ " s.d. " ++ end_date)%string.

(** [picker.value.strftime('%Y-%m-%d')]: the value of a date picker is a
    date, or [None] once the picker is cleared. *)
Definition picker_strftime (value : option datetime) : Ui string :=
  match value with
  | Some d => ui_ret (strftime d)
  | None => ui_raise (attribute_error "NoneType" "strftime")
  end.

Definition tampilkan_klasifikasi (g : Globals)
    (tanggal_mulai tanggal_akhir : option datetime) : Ui unit :=
  clear_output;;
  start_date <- picker_strftime tanggal_mulai;;
  end_date <- picker_strftime tanggal_akhir;;
  ui_try
    (let filtered := filterDate (hasil_klasifikasi g) start_date end_date in
     filtered_size <- ui_call (size_getInfo filtered);;
     if 0 <? filtered_size then
       let layer_name := layer_name_of start_date end_date in
       v <- read_global "vis_params" (vis_params g);;
       addLayer (MeanLayer filtered v) layer_name;;
       widget_print (UiLayerAdded layer_name);;
       widget_print (UiImageCount filtered_size);;
       mean_class <- ui_call (mean_getInfo filtered);;
       match mean_class !! "classification" with
       | Some avg_class =>
           if truthy_number avg_class then
             q <- format_float avg_class;;
             widget_print (UiMeanClass q)
           else ui_ret tt
       | None => ui_ret tt
       end
     else widget_print (UiNoImages start_date end_date))
    (fun e => widget_print (UiError e)).

(** *** clear_layers, on the state of the interactive layer: [Map.layers]
    is the tuple of the layers on the map. *)
Definition klik_clear : Ui unit :=
  fun st =>
    let '(r, w) :=
      clear_layers Map_remove_layer
        {| layers := map_to_list (Map_layers st); output_widget := [] |} in
    (r, {| Map_layers := list_to_map (layers w);
           widget_lines := UiPrinted <$> output_widget w;
           stdout := stdout st;
           started_tasks := started_tasks st |}).

(** The clicks of the two buttons, with the values the pickers hold. *)
Inductive ui_event :=
  | KlikTampilkan (tanggal_mulai tanggal_akhir : option datetime)
  | KlikClear.

Definition handle (g : Globals) (ev : ui_event) : Ui unit :=
  match ev with
  | KlikTampilkan mulai akhir => tampilkan_klasifikasi g mulai akhir
  | KlikClear => klik_clear
  end.

(** The state after a sequence of clicks; an exception leaving a callback
    leaves the state the callback reached. *)
Definition run_events (g : Globals) (events : list ui_event) (st : UiState)
  : UiState :=
  foldl (fun st ev => snd (handle g ev st)) st events.

End Interactive.

(** ** The analysis and export helpers *)

(** [l[i]]: an [IndexError] out of range. *)
Definition list_getitem (l : list string) (i : nat) : Ui string :=
  match l !! i with
  | Some x => ui_ret x
  | None => ui_raise (Exn "IndexError" "list index out of range")
  end.

(** The loop over the histogram of [analisis_komprehensif]; it rebinds
    [count], whose last value is returned. *)
Fixpoint histogram_loop (i : nat) (items : list Q) (count : Q) : Ui Q :=
  match items with
  | [] => ui_ret count
  | c :: rest =>
      (if negb (Qle_bool c 0) then
         class_name <-
           (if (i + 1 <? length LABEL)%nat then list_getitem LABEL (i + 1)
            else ui_ret ("Kelas " ++ pretty (i + 1)%nat)%string);;
         ui_print (UiClassCount class_name c)
       else ui_ret tt);;
      histogram_loop (S i) rest c
  end.

(** [if key in stats: print(f'...{stats[key]:.2f}')]. *)
Definition print_stat (stats : gmap string (option Q)) (key : string)
    (line : Q -> ui_message) : Ui unit :=
  match stats !! key with
  | Some v => q <- format_float v;; ui_print (line q)
  | None => ui_ret tt
  end.

Section Helpers.

Variable filterDate : list Image -> string -> string -> list Image.
Variable size_getInfo : list Image -> result Z.

(** The combined reducer and the histogram reducer of
    [analisis_komprehensif], after [getInfo()]. *)
Variable stats_getInfo : list Image -> result (gmap string (option Q)).
Variable histogram_getInfo :
  list Image -> result (gmap string (option (gmap string (list Q)))).

(** The exception, if any, of [task.start()], and [task.status()] of a
    started task. *)
Variable start_error : export_config -> option exn.
Variable task_status : export_config -> result string.

(** [task.start()]: the task is running on the platform afterwards. *)
Definition start_task (task : export_config) : Ui unit :=
  fun st =>
    match start_error task with
    | Some e => (Raise e, st)
    | None =>
        (Ok tt, {| Map_layers := Map_layers st;
                   widget_lines := widget_lines st;
                   stdout := stdout st;
                   started_tasks := started_tasks st ++ [task] |})
    end.

(** *** analisis_komprehensif *)
Definition analisis_komprehensif (g : Globals) (start_date end_date : string)
  : Ui (option analysis) :=
  ui_try
    (ui_print (UiAnalysisHeader start_date end_date);;
     ui_print (UiRule 60);;
     let filtered := filterDate (hasil_klasifikasi g) start_date end_date in
     count <- ui_call (size_getInfo filtered);;
     if 0 <? count then
       stats <- ui_call (stats_getInfo filtered);;
       ui_print UiStatisticsHeader;;
       ui_print (UiImageCount count);;
       print_stat stats "classification_mean" UiStatMean;;
       print_stat stats "classification_stdDev" UiStatStdDev;;
       print_stat stats "classification_min" UiStatMin;;
       print_stat stats "classification_max" UiStatMax;;
       histogram <- ui_call (histogram_getInfo filtered);;
       ui_print UiDistributionHeader;;
       count <-
         match histogram !! "classification" with
         | Some hist_data =>
             match hist_data with
             | Some d =>
                 if bool_decide (d <> ∅) then
                   match d !! "histogram" with
                   | Some items => histogram_loop 0 items (inject_Z count)
                   | None => ui_ret (inject_Z count)
                   end
                 else ui_ret (inject_Z count)
             | None => ui_ret (inject_Z count)
             end
         | None => ui_ret (inject_Z count)
         end;;
       ui_ret (Some {| period := (start_date ++ " to " ++ end_date)%string;
                       image_count := count;
                       statistics := stats;
                       histogram := histogram |})
     else
       ui_print (UiNoData start_date end_date);;
       ui_ret None)
    (fun e => ui_print (UiAnalysisError e);; ui_ret None).

(** *** export_hasil_klasifikasi *)
Definition export_hasil_klasifikasi (g : Globals)
    (start_date end_date : string) (scale : Z) (folder : string)
  : Ui (option export_config) :=
  ui_try
    (ui_print UiExportHeader;;
     ui_print (UiRule 40);;
     let filtered := filterDate (hasil_klasifikasi g) start_date end_date in
     count <- ui_call (size_getInfo filtered);;
     if count =? 0 then
       ui_print (UiNothingToExport start_date end_date);;
       ui_ret None
     else
       let filename :=
         ("Klasifikasi_Padi_" ++ start_date ++ "_to_" ++ end_date
            ++ "_scale" ++ pretty scale ++ "m")%string in
       let task :=
         {| export_images := filtered;
            description := filename;
            folder := folder;
            scale := scale;
            export_crs := "EPSG:4326";
            fileFormat := Some "GeoTIFF" |} in
       start_task task;;
       ui_print UiExportStarted;;
       ui_print (UiExportFolder folder);;
       ui_print (UiExportFilename filename);;
       ui_print (UiExportScale scale);;
       ui_print (UiImageCount count);;
       status <- ui_call (task_status task);;
       ui_print (UiExportStatus status);;
       ui_print UiCheckDrive;;
       ui_ret (Some task))
    (fun e => ui_print (UiExportError e);; ui_ret None).

(** *** export_classification (rice_classification_with_existing_model.py) *)
Definition export_classification (g : Globals)
    (start_date end_date : string) (scale : Z) (folder : string)
  : Ui (option export_config) :=
  ui_try
    (let filtered := filterDate (hasil_klasifikasi g) start_date end_date in
     let task :=
       {| export_images := filtered;
          description :=
            ("Klasifikasi_Padi_" ++ start_date ++ "_to_" ++ end_date)%string;
          folder := folder;
          scale := scale;
          export_crs := "EPSG:4326";
          fileFormat := None |} in
     start_task task;;
     ui_print (UiExportBegun (description task));;
     ui_print (UiExportFolder folder);;
     ui_print (UiExportScale scale);;
     ui_print UiCheckDrive;;
     ui_ret (Some task))
    (fun e => ui_print (UiExportError e);; ui_ret None).

End Helpers.

Local Close Scope ui_scope.


(** ** Vocabulary and sample inputs for the interactive layer *)

(** The visualisation parameters of section 8. *)
Definition vis_fase : vis := {| vis_min := 1; vis_max := 5; palette := PALET |}.

(** Replace the output widget's content and the layers of a state. *)
Definition with_widget (st : UiState) (layers : gmap string map_layer)
    (lines : list ui_message) : UiState :=
  {| Map_layers := layers; widget_lines := lines;
     stdout := stdout st; started_tasks := started_tasks st |}.

(** What the statistics step of [tampilkan_klasifikasi] prints. *)
Definition mean_class_lines (r : result (gmap string (option Q)))
  : list ui_message :=
  match r with
  | Raise e => [UiError e]
  | Ok mean_class =>
      match mean_class !! "classification" with
      | Some (Some q) => if Qeq_bool q 0 then [] else [UiMeanClass q]
      | _ => []
      end
  end.

Definition first_half_2024 (images : list Image) (start_date end_date : string)
  : list Image :=
  filter_by_time before_march images.

Definition count_images (images : list Image) : result Z :=
  Ok (Z.of_nat (length images)).


Definition peta_dasar : gmap string map_layer :=
  {[ "OpenStreetMap" := BaseLayer "OpenStreetMap" ]}.


(** ** Vocabulary and sample inputs for the helpers *)

(** A state after more lines on the standard output, and after one more
    export task. *)
Definition with_stdout (st : UiState) (lines : list ui_message) : UiState :=
  {| Map_layers := Map_layers st; widget_lines := widget_lines st;
     stdout := stdout st ++ lines; started_tasks := started_tasks st |}.

Definition with_task (st : UiState) (task : export_config) : UiState :=
  {| Map_layers := Map_layers st; widget_lines := widget_lines st;
     stdout := stdout st; started_tasks := started_tasks st ++ [task] |}.

(** A computation that only adds lines to the standard output. *)
Definition prints_only {A} (c : Ui A) : Prop :=
  forall st, exists r lines, c st = (r, with_stdout st lines).

(** The name printed for the bucket at position [i] of the histogram. *)
Definition class_name_of (i : nat) : string :=
  match LABEL !! (i + 1)%nat with
  | Some label => label
  | None => ("Kelas " ++ pretty (i + 1)%nat)%string
  end.

(** The lines printed for the buckets from position [i] on. *)
Fixpoint histogram_lines (i : nat) (items : list Q) : list ui_message :=
  match items with
  | [] => []
  | c :: rest =>
      (if Qle_bool c 0 then [] else [UiClassCount (class_name_of i) c])
        ++ histogram_lines (S i) rest
  end.

(** The buckets of a histogram dictionary, as the loop sees them. *)
Definition buckets (histogram : gmap string (option (gmap string (list Q))))
  : list Q :=
  match histogram !! "classification" with
  | Some (Some d) => default [] (d !! "histogram")
  | _ => []
  end.




Definition stats_contoh (images : list Image)
  : result (gmap string (option Q)) :=
  Ok {[ "classification_mean" := Some (5 # 2)%Q ]}.

(** Seven buckets, the last one holding 4 pixels. *)
Definition histogram_contoh (images : list Image)
  : result (gmap string (option (gmap string (list Q)))) :=
  Ok {[ "classification" :=
          Some {[ "histogram" :=
                    [0 # 1; 12 # 1; 7 # 1; 0 # 1; 3 # 1; 0 # 1; 4 # 1]%Q ]} ]}.

Definition ui_kosong : UiState :=
  {| Map_layers := peta_dasar; widget_lines := []; stdout := [];
     started_tasks := [] |}.

Definition dua_citra : Globals :=
  {| hasil_klasifikasi := [citra_new_year; citra_mid_year];
     vis_params := Some vis_fase |}.

Definition starts_fine : export_config -> option exn := fun _ => None.

Definition status_ready : export_config -> result string :=
  fun _ => Ok "READY".

Definition nothing_in_range (images : list Image) (s e : string)
  : list Image := [].


(** A statistic that [analisis_komprehensif] can print: absent, or a
    number. *)
Definition printable (stats : gmap string (option Q)) (key : string) : bool :=
  match stats !! key with
  | Some None => false
  | _ => true
  end.

Definition all_printable (stats : gmap string (option Q)) : bool :=
  printable stats "classification_mean"
  && printable stats "classification_stdDev"
  && printable stats "classification_min"
  && printable stats "classification_max".

(** The task [export_hasil_klasifikasi] configures. *)
Definition export_task_of (images : list Image) (start_date end_date : string)
    (scale : Z) (folder : string) : export_config :=
  {| export_images := images;
     description :=
       ("Klasifikasi_Padi_" ++ start_date ++ "_to_" ++ end_date
          ++ "_scale" ++ pretty scale ++ "m")%string;
     folder := folder;
     scale := scale;
     export_crs := "EPSG:4326";
     fileFormat := Some "GeoTIFF" |}.

Definition type_error_format : exn :=
  Exn "TypeError" "unsupported format string passed to NoneType.__format__".

(** * Properties *)

(** Unfold the monad of the Python code. *)
Ltac py_unfold :=
  unfold bind, ret, print, call, raise, try_except, getitem, contains,
    set_of in *.

Ltac py_simpl := py_unfold; cbn [fst snd negb] in *.

Ltac py_run := do 3 (py_unfold; cbn -[py_ne_int] in *).

(** ** load_model *)

(** The outcome of [load_model], by cases on the two readers. *)
Lemma load_model_run pl jl self out :
  load_model pl jl self out =
    match pl (model_path self), jl (model_path self) with
    | Ok v, _ =>
        (Ok (true, set_loaded_model self v),
         out ++ [MsgLoadedPickle (model_path self)])
    | Raise _, Ok v =>
        (Ok (true, set_loaded_model self v),
         out ++ [MsgLoadedJoblib (model_path self)])
    | Raise e1, Raise e2 =>
        (Ok (false, self), (out ++ [MsgPickleFailed e1]) ++ [MsgJoblibFailed e2])
    end.
Proof.
  unfold load_model. py_simpl.
  destruct (pl (model_path self)); [reflexivity |].
  now destruct (jl (model_path self)).
Qed.

(** C2. [load_model] reads the file with pickle first; joblib is consulted
    only when pickle raised (with pickle succeeding, the outcome is the same
    for every joblib reader); it returns [True] with the deserialized value
    in [loaded_model] as soon as one of them succeeds, and returns [False]
    exactly when both raise, and then the loader is left as it was. *)
Theorem load_model_pickle_then_joblib
    (pl jl : string -> result (option py_object)) (self : ModelLoader)
    (out : list message) :
  (forall v, pl (model_path self) = Ok v ->
     forall jl', load_model pl jl' self out =
       (Ok (true, set_loaded_model self v),
        out ++ [MsgLoadedPickle (model_path self)])) /\
  (forall e1 v, pl (model_path self) = Raise e1 ->
     jl (model_path self) = Ok v ->
     load_model pl jl self out =
       (Ok (true, set_loaded_model self v),
        out ++ [MsgLoadedJoblib (model_path self)])) /\
  (forall e1 e2, pl (model_path self) = Raise e1 ->
     jl (model_path self) = Raise e2 ->
     load_model pl jl self out =
       (Ok (false, self), out ++ [MsgPickleFailed e1; MsgJoblibFailed e2])) /\
  (forall self' out', load_model pl jl self out = (Ok (false, self'), out') ->
     self' = self /\
     exists e1 e2, pl (model_path self) = Raise e1 /\
                   jl (model_path self) = Raise e2) /\
  (forall self' out', load_model pl jl self out = (Ok (true, self'), out') ->
     exists v, loaded_model self' = v /\
       (pl (model_path self) = Ok v \/
        (exists e1, pl (model_path self) = Raise e1) /\
        jl (model_path self) = Ok v)).
Proof.
  split; [| split; [| split; [| split]]].
  - intros v Hp jl'. rewrite load_model_run. now rewrite Hp.
  - intros e1 v Hp Hj. rewrite load_model_run. now rewrite Hp, Hj.
  - intros e1 e2 Hp Hj. rewrite load_model_run, Hp, Hj.
    now rewrite <- app_assoc.
  - intros self' out'. rewrite load_model_run.
    destruct (pl (model_path self)) as [v | e1]; [discriminate |].
    destruct (jl (model_path self)) as [v | e2]; [discriminate |].
    intros [= <- _]. eauto.
  - intros self' out'. rewrite load_model_run.
    destruct (pl (model_path self)) as [v | e1].
    + intros [= <- _]. exists v. split; [reflexivity | now left].
    + destruct (jl (model_path self)) as [v | e2]; [| discriminate].
      intros [= <- _]. exists v. split; [reflexivity |]. right. eauto.
Qed.

(** A fresh loader whose file neither reader can read keeps
    [loaded_model = None]. *)
Lemma load_model_pickle_then_joblib_witness :
  load_model (fun _ => Raise no_file) (fun _ => Raise bad_pickle)
             (init MODEL_PATH BANDS_SELECTED) [] =
    (Ok (false, init MODEL_PATH BANDS_SELECTED),
     [MsgPickleFailed no_file; MsgJoblibFailed bad_pickle]) /\
  loaded_model (init MODEL_PATH BANDS_SELECTED) = None.
Proof.
  split; [| reflexivity].
  apply (load_model_pickle_then_joblib (fun _ => Raise no_file)
           (fun _ => Raise bad_pickle) (init MODEL_PATH BANDS_SELECTED) []);
    reflexivity.
Defined.

(** ** get_model_info *)

Lemma lookup_add_if_ne {A} key (field : option A) conv info k :
  key <> k -> add_if key field conv info !! k = info !! k.
Proof.
  intros Hne. unfold add_if. destruct field; [| reflexivity].
  now apply lookup_insert_ne.
Qed.

Lemma lookup_add_if_eq {A} key (field : option A) conv info :
  info !! key = None -> add_if key field conv info !! key = conv <$> field.
Proof.
  intros Hnone. unfold add_if. destruct field; [| assumption].
  apply lookup_insert_eq.
Qed.

Lemma dom_add_if {A} key (field : option A) conv info :
  dom (add_if key field conv info) ⊆ {[key]} ∪ dom info.
Proof.
  unfold add_if. destruct field; [rewrite dom_insert_L |]; set_solver.
Qed.

(** [tolist()] raises on everything but an array. *)
Lemma tolist_error_None (field : option pyattr) :
  tolist_error field = None <->
  forall v, field = Some v -> exists items, v = AttrArray items.
Proof.
  destruct field as [[a | l | items] |]; cbn; split;
    try discriminate; try reflexivity.
  all: try (intros H; destruct (H _ eq_refl) as [items' [=]]).
  all: intros _ v Hv; inversion Hv; eauto.
Qed.

Lemma tolist_error_class (field : option pyattr) (e : exn) :
  tolist_error field = Some e -> exn_class e = "AttributeError".
Proof.
  destruct field as [[a | l | items] |]; cbn; intros He;
    try discriminate; injection He as <-; reflexivity.
Qed.

Lemma info_error_None (o : py_object) :
  info_error o = None <->
  tolist_error (feature_names_in_ o) = None /\
  tolist_error (classes_ o) = None.
Proof.
  unfold info_error.
  destruct (tolist_error (feature_names_in_ o)); [| tauto].
  split; [discriminate | intros [[=] _]].
Qed.

Lemma info_error_class (o : py_object) (e : exn) :
  info_error o = Some e -> exn_class e = "AttributeError".
Proof.
  unfold info_error.
  destruct (tolist_error (feature_names_in_ o)) as [e' |] eqn:He.
  - intros [= <-]. eapply tolist_error_class, He.
  - apply tolist_error_class.
Qed.

(** The information of an object can be read exactly when the two
    attributes, where present, are arrays. *)
Lemma info_error_arrays (o : py_object) :
  info_error o = None <->
  forall v, feature_names_in_ o = Some v \/ classes_ o = Some v ->
    exists items, v = AttrArray items.
Proof.
  rewrite info_error_None, !tolist_error_None. split.
  - intros [Hf Hc] v [Hv | Hv]; eauto.
  - intros H. split; intros v Hv; apply H; tauto.
Qed.

Lemma add_tolist_run key field info :
  add_tolist key field info =
    match tolist_error field with
    | Some e => Raise e
    | None => Ok (add_if key (array_items field) PyList info)
    end.
Proof. destruct field as [[a | l | items] |]; reflexivity. Qed.

(** [get_model_info] on a loaded object. *)
Lemma get_model_info_run (self : ModelLoader) (o : py_object) :
  loaded_model self = Some o ->
  get_model_info self =
    match info_error o with
    | Some e => Raise e
    | None => Ok (Some (info_of o))
    end.
Proof.
  intros Hm. unfold get_model_info, info_error, info_of. rewrite Hm.
  rewrite add_tolist_run.
  destruct (tolist_error (feature_names_in_ o)); [reflexivity |].
  rewrite add_tolist_run.
  now destruct (tolist_error (classes_ o)).
Qed.

(** The entries of the dictionary. *)
Lemma info_of_lookup (o : py_object) :
  info_of o !! "model_type" = Some (PyAtom (PyStr (type_name o))) /\
  info_of o !! "model_class" = Some (PyAtom (PyStr (type_str o))) /\
  info_of o !! "n_estimators" = PyAtom <$> n_estimators o /\
  info_of o !! "max_depth" = PyAtom <$> max_depth o /\
  info_of o !! "n_features" = PyAtom <$> n_features_in_ o /\
  info_of o !! "feature_names" = PyList <$> array_items (feature_names_in_ o) /\
  info_of o !! "classes" = PyList <$> array_items (classes_ o) /\
  dom (info_of o) ⊆ info_keys.
Proof.
  unfold info_of. repeat split.
  1-7: repeat first
         [ rewrite lookup_add_if_ne by discriminate
         | rewrite lookup_insert_ne by discriminate
         | rewrite lookup_add_if_eq
         | rewrite lookup_insert_eq
         | rewrite lookup_empty ];
       reflexivity.
  do 5 (etrans; [apply dom_add_if |];
        apply union_least;
        [apply singleton_subseteq_l; unfold info_keys;
         rewrite !elem_of_union, !elem_of_singleton; tauto |]).
  rewrite !dom_insert_L, dom_empty_L. unfold info_keys.
  intros k. rewrite !elem_of_union, !elem_of_singleton, elem_of_empty. tauto.
Qed.

(** C7, as stated, fails for a forest fitted on two targets: the object is
    loaded and has [classes_], a list, and [get_model_info] raises
    [AttributeError] instead of returning a dictionary. *)
Lemma get_model_info_raises_on_list_classes :
  loaded_model (loader_with forest_two_outputs) = Some forest_two_outputs /\
  get_model_info (loader_with forest_two_outputs) =
    Raise (attribute_error "list" "tolist") /\
  ~ exists info,
      get_model_info (loader_with forest_two_outputs) = Ok (Some info).
Proof.
  split; [reflexivity |]. split; [reflexivity |].
  intros [info H]. discriminate H.
Qed.

(** C7 (amended). [get_model_info] returns [None] exactly when no model is
    loaded.  For a loaded object whose [feature_names_in_] and [classes_],
    where present, are arrays, it returns a dictionary holding the type name
    under ['model_type'] and the type under ['model_class'], and holding
    ['n_estimators'], ['max_depth'], ['n_features'], ['feature_names'] and
    ['classes'] exactly when the object has [n_estimators], [max_depth],
    [n_features_in_], [feature_names_in_] and [classes_], with their values;
    it holds no other key.  When one of the two is present and is not an
    array, the call raises [AttributeError]. *)
Theorem get_model_info_probes (self : ModelLoader) :
  (get_model_info self = Ok None <-> loaded_model self = None) /\
  (forall o, loaded_model self = Some o ->
     (forall v, feature_names_in_ o = Some v \/ classes_ o = Some v ->
        exists items, v = AttrArray items) ->
     exists info, get_model_info self = Ok (Some info) /\
       info !! "model_type" = Some (PyAtom (PyStr (type_name o))) /\
       info !! "model_class" = Some (PyAtom (PyStr (type_str o))) /\
       info !! "n_estimators" = PyAtom <$> n_estimators o /\
       info !! "max_depth" = PyAtom <$> max_depth o /\
       info !! "n_features" = PyAtom <$> n_features_in_ o /\
       (forall items, feature_names_in_ o = Some (AttrArray items) ->
          info !! "feature_names" = Some (PyList items)) /\
       (feature_names_in_ o = None -> info !! "feature_names" = None) /\
       (forall items, classes_ o = Some (AttrArray items) ->
          info !! "classes" = Some (PyList items)) /\
       (classes_ o = None -> info !! "classes" = None) /\
       dom info ⊆ info_keys) /\
  (forall o v, loaded_model self = Some o ->
     feature_names_in_ o = Some v \/ classes_ o = Some v ->
     (forall items, v <> AttrArray items) ->
     exists e, get_model_info self = Raise e /\
               exn_class e = "AttributeError").
Proof.
  split; [| split].
  - unfold get_model_info. destruct (loaded_model self) as [o |].
    + split; [| discriminate].
      destruct (add_tolist _ _ _); [| discriminate].
      destruct (add_tolist _ _ _); discriminate.
    + split; reflexivity.
  - intros o Hm Harr.
    assert (Hinfo : info_error o = None) by now apply info_error_arrays.
    exists (info_of o). rewrite (get_model_info_run self o Hm), Hinfo.
    destruct (info_of_lookup o)
      as (Ht & Hc & Hn & Hd & Hf & Hnames & Hclasses & Hdom).
    repeat split; try assumption.
    + intros items Hi. rewrite Hnames, Hi. reflexivity.
    + intros Hi. rewrite Hnames, Hi. reflexivity.
    + intros items Hi. rewrite Hclasses, Hi. reflexivity.
    + intros Hi. rewrite Hclasses, Hi. reflexivity.
  - intros o v Hm Hv Hno.
    destruct (info_error o) as [e |] eqn:He.
    + exists e. rewrite (get_model_info_run self o Hm), He.
      split; [reflexivity |]. eapply info_error_class, He.
    + exfalso. rewrite info_error_arrays in He.
      destruct (He v Hv) as [items ->]. now apply (Hno items).
Qed.

Lemma get_model_info_probes_witness :
  exists info,
    get_model_info (loader_with forest_unlimited) = Ok (Some info) /\
    info !! "n_estimators" = Some (PyAtom (PyInt 50)) /\
    info !! "max_depth" = Some (PyAtom PyNone) /\
    info !! "feature_names" = Some (PyList bands_reversed).
Proof.
  destruct (get_model_info_probes (loader_with forest_unlimited))
    as (_ & H & _).
  destruct (H forest_unlimited eq_refl)
    as (info & Hi & _ & _ & Hn & Hd & _ & Hf & _).
  - intros v [[= <-] | [= <-]]; eauto.
  - exists info. repeat split; try assumption. now apply Hf.
Defined.

(** ** create_ee_model *)

(** The three calls of [ee.Classifier.smileRandomForest] in the code. *)
Lemma smileRandomForest_maxDepth (n_trees max_depth : pyatom) :
  Classifier_smileRandomForest []
    [("numberOfTrees", n_trees); ("maxDepth", max_depth)] =
  Raise (unexpected_keyword "maxDepth").
Proof. reflexivity. Qed.

Lemma smileRandomForest_numberOfTrees (n_trees : pyatom) :
  Classifier_smileRandomForest [] [("numberOfTrees", n_trees)] =
  Ok (smileRandomForest n_trees).
Proof. reflexivity. Qed.

Lemma smileRandomForest_positional (n_trees : pyatom) :
  Classifier_smileRandomForest [n_trees] [] = Ok (smileRandomForest n_trees).
Proof. reflexivity. Qed.

(** [create_ee_model] on a loaded object, in closed form. *)
Lemma create_ee_model_run
    (te : ee_classifier -> table -> option exn) (self : ModelLoader)
    (data : table) (out : list message) (o : py_object) :
  loaded_model self = Some o ->
  create_ee_model te self data out =
    match info_error o with
    | Some e => (Raise e, out)
    | None =>
        if passes_maxDepth o then
          (Raise (unexpected_keyword "maxDepth"), out ++ creation_messages o)
        else
          let trained :=
            Trained (forest_for o) data "FaseNumerik" (bands_selected self) in
          match te (forest_for o) data with
          | None =>
              (Ok (Some trained, set_ee_model self trained),
               out ++ creation_messages o ++ [MsgEETrained])
          | Some e =>
              (Ok (None, set_ee_model self (forest_for o)),
               out ++ creation_messages o ++ [MsgEETrainError e])
          end
    end.
Proof.
  intros Hm. unfold create_ee_model. rewrite Hm.
  unfold bind at 1, call at 1. rewrite (get_model_info_run self o Hm).
  destruct (info_error o) as [e |]; [reflexivity |].
  destruct (info_of_lookup o) as (Ht & _).
  unfold passes_maxDepth, forest_for, creation_messages, getitem.
  rewrite Ht.
  destruct (is_RandomForestClassifier o); cbn [andb].
  - destruct (truthy (getattr (max_depth o) PyNone)).
    + rewrite smileRandomForest_maxDepth. py_simpl.
      now rewrite <- !app_assoc.
    + rewrite smileRandomForest_numberOfTrees. unfold train. py_simpl.
      destruct (te _ data); now rewrite <- !app_assoc.
  - rewrite smileRandomForest_positional. unfold train. py_simpl.
    destruct (te _ data); now rewrite <- !app_assoc.
Qed.

Lemma passes_maxDepth_spec (o : py_object) :
  passes_maxDepth o = true <->
  is_RandomForestClassifier o = true /\
  exists d, max_depth o = Some d /\ truthy d = true.
Proof.
  unfold passes_maxDepth. rewrite andb_true_iff.
  destruct (max_depth o) as [d |]; cbn.
  - split; intros [Hrf Hd]; (split; [assumption |]).
    + eauto.
    + now destruct Hd as (d' & [= <-] & Hd).
  - split; [intros [_ [=]] | intros [_ (d & [=] & _)]].
Qed.

(** C1, on the program: for a forest whose [max_depth] is truthy,
    [create_ee_model] passes [maxDepth] to [ee.Classifier.smileRandomForest],
    which has no such parameter; the call raises before the [try], so no
    classifier is created or trained and nothing is returned, whatever the
    training call would do.  (When the information of the object cannot be
    read, the exception of [get_model_info] comes first.) *)
Theorem create_ee_model_maxDepth_raises
    (te : ee_classifier -> table -> option exn) (self : ModelLoader)
    (training_data : table) (out : list message) (o : py_object)
    (d : pyatom) :
  loaded_model self = Some o ->
  is_RandomForestClassifier o = true ->
  max_depth o = Some d ->
  truthy d = true ->
  exists e out',
    create_ee_model te self training_data out = (Raise e, out') /\
    (info_error o = None ->
       e = unexpected_keyword "maxDepth" /\
       out' = out ++ [MsgModelInfo (Some (info_of o));
                      MsgCreatingForest (getattr (n_estimators o) (PyInt 100));
                      MsgMaxDepth d]).
Proof.
  intros Hm Hrf Hd Ht.
  assert (Hp : passes_maxDepth o = true).
  { apply passes_maxDepth_spec. eauto. }
  rewrite (create_ee_model_run te self training_data out o Hm), Hp.
  destruct (info_error o) as [e |].
  - exists e, out. split; [reflexivity | discriminate].
  - do 2 eexists. split; [reflexivity |]. intros _. split; [reflexivity |].
    unfold creation_messages. rewrite Hrf, Hd. cbn [getattr]. now rewrite Ht.
Qed.

(** The forest of 50 trees with [max_depth=5]. *)
Lemma create_ee_model_maxDepth_raises_witness :
  create_ee_model never_fails (loader_with forest_seven_bands) [] [] =
    (Raise (unexpected_keyword "maxDepth"),
     [MsgModelInfo (Some (info_of forest_seven_bands));
      MsgCreatingForest (PyInt 50); MsgMaxDepth (PyInt 5)]).
Proof.
  destruct (create_ee_model_maxDepth_raises never_fails
              (loader_with forest_seven_bands) [] [] forest_seven_bands
              (PyInt 5) eq_refl eq_refl eq_refl eq_refl)
    as (e & out' & Hrun & Hout).
  destruct (Hout eq_refl) as [-> ->]. exact Hrun.
Defined.

(** ** validate_model_compatibility *)

Lemma py_ne_int_spec (a : pyatom) (n : Z) :
  py_ne_int (PyAtom a) n = true <-> a <> PyInt n.
Proof.
  destruct a as [| m | s]; cbn; try (split; [discriminate | reflexivity]).
  rewrite negb_true_iff, Z.eqb_neq. split; congruence.
Qed.

Lemma count_matches_spec o bands :
  count_matches o bands = false <-> count_mismatch o bands.
Proof.
  unfold count_matches, count_mismatch.
  destruct (n_features_in_ o) as [n |].
  - rewrite negb_false_iff, py_ne_int_spec. split.
    + intros Hne. eauto.
    + intros (m & [= <-] & Hne). assumption.
  - split; [discriminate | intros (m & [=] & _)].
Qed.

Lemma names_match_spec o bands :
  names_match o bands = false <-> names_mismatch o bands.
Proof.
  unfold names_match, names_mismatch.
  destruct (feature_names_in_ o) as [[a | l | names] |]; cbn.
  1, 2, 4: split; [discriminate | intros (l' & [=] & _)].
  rewrite bool_decide_eq_false. split.
  - intros Hne. eauto.
  - intros (l' & [= <-] & Hne). assumption.
Qed.

(** [validate_model_compatibility] on a loaded object, in closed form. *)
Lemma validate_run (self : ModelLoader) (o : py_object)
    (out : list message) :
  loaded_model self = Some o ->
  validate_model_compatibility self out =
    match info_error o with
    | Some e => (Raise e, out)
    | None =>
        (Ok (compatible o (bands_selected self)),
         out ++ validation_messages o (bands_selected self))
    end.
Proof.
  intros Hm. unfold validate_model_compatibility. rewrite Hm.
  unfold bind at 1, call at 1. rewrite (get_model_info_run self o Hm).
  destruct (info_error o) as [e |]; [reflexivity |].
  destruct (info_of_lookup o) as (_ & _ & _ & _ & Hn & Hf & _).
  unfold compatible, count_matches, names_match, validation_messages,
    names_messages.
  py_simpl. rewrite Hn, Hf.
  destruct (n_features_in_ o) as [n |]; py_run.
  - destruct (py_ne_int n _); py_run; [reflexivity |].
    destruct (array_items (feature_names_in_ o)) as [names |]; py_run;
      [| reflexivity].
    repeat case_bool_decide; try congruence; py_run;
      now rewrite <- ?app_assoc.
  - destruct (array_items (feature_names_in_ o)) as [names |]; py_run;
      [| reflexivity].
    repeat case_bool_decide; try congruence; py_run;
      now rewrite <- ?app_assoc.
Qed.

Lemma validation_messages_compatible (o : py_object) (bands : list string) :
  compatible o bands = true -> validation_messages o bands = [MsgCompatible].
Proof.
  unfold compatible, count_matches, names_match, validation_messages,
    names_messages.
  rewrite andb_true_iff. intros [Hc Hn].
  destruct (n_features_in_ o) as [n |].
  - apply negb_true_iff in Hc. rewrite Hc.
    destruct (array_items (feature_names_in_ o)); [| reflexivity].
    now rewrite Hn.
  - destruct (array_items (feature_names_in_ o)); [| reflexivity].
    now rewrite Hn.
Qed.

Lemma compatible_false (o : py_object) (bands : list string) :
  compatible o bands = false <->
  count_mismatch o bands \/ names_mismatch o bands.
Proof.
  unfold compatible.
  rewrite andb_false_iff, count_matches_spec, names_match_spec. tauto.
Qed.

(** C4, as stated, fails for the forest fitted on two targets: a model is
    loaded, its feature count is the number of bands and its feature names
    are the bands, yet the validation does not return [True]: it raises,
    because [get_model_info] cannot convert [classes_]. *)
Lemma validate_raises_on_list_classes :
  loaded_model (loader_with forest_two_outputs) = Some forest_two_outputs /\
  ~ count_mismatch forest_two_outputs BANDS_SELECTED /\
  ~ names_mismatch forest_two_outputs BANDS_SELECTED /\
  validate_model_compatibility (loader_with forest_two_outputs) [] =
    (Raise (attribute_error "list" "tolist"), []).
Proof.
  split; [reflexivity |].
  assert (Hc : compatible forest_two_outputs BANDS_SELECTED = true)
    by (vm_compute; reflexivity).
  split; [| split; [| reflexivity]].
  - intros H. assert (H' : compatible forest_two_outputs BANDS_SELECTED
                             = false) by (apply compatible_false; tauto).
    congruence.
  - intros H. assert (H' : compatible forest_two_outputs BANDS_SELECTED
                             = false) by (apply compatible_false; tauto).
    congruence.
Qed.

(** C4 (amended). [validate_model_compatibility] returns [False] when no
    model is loaded.  With a model loaded whose [feature_names_in_] and
    [classes_], where present, are arrays, it returns a boolean, and that
    boolean is [False] exactly when the model exposes [n_features_in_]
    different from the number of configured bands or exposes
    [feature_names_in_] whose set differs from the set of configured bands;
    otherwise (also when the model exposes neither) it is [True].  When one
    of the two attributes is present and is not an array, the call raises
    [AttributeError]. *)
Theorem validate_model_compatibility_decides (self : ModelLoader)
    (out : list message) :
  (loaded_model self = None ->
     validate_model_compatibility self out = (Ok false, out)) /\
  (forall o, loaded_model self = Some o ->
     (forall v, feature_names_in_ o = Some v \/ classes_ o = Some v ->
        exists items, v = AttrArray items) ->
     exists b out', validate_model_compatibility self out = (Ok b, out') /\
       (b = false <-> count_mismatch o (bands_selected self) \/
                      names_mismatch o (bands_selected self)) /\
       (n_features_in_ o = None -> feature_names_in_ o = None -> b = true)) /\
  (forall o v, loaded_model self = Some o ->
     feature_names_in_ o = Some v \/ classes_ o = Some v ->
     (forall items, v <> AttrArray items) ->
     exists e, validate_model_compatibility self out = (Raise e, out) /\
               exn_class e = "AttributeError").
Proof.
  split; [| split].
  - intros Hm. unfold validate_model_compatibility. now rewrite Hm.
  - intros o Hm Harr. apply info_error_arrays in Harr.
    rewrite (validate_run self o out Hm), Harr.
    do 2 eexists. split; [reflexivity |]. split.
    + apply compatible_false.
    + intros Hn Hf. unfold compatible, count_matches, names_match.
      now rewrite Hn, Hf.
  - intros o v Hm Hv Hno.
    rewrite (validate_run self o out Hm).
    destruct (info_error o) as [e |] eqn:He.
    + exists e. split; [reflexivity |]. eapply info_error_class, He.
    + exfalso. rewrite info_error_arrays in He.
      destruct (He v Hv) as [items ->]. now apply (Hno items).
Qed.

Lemma validate_model_compatibility_decides_witness :
  validate_model_compatibility (init MODEL_PATH BANDS_SELECTED) [] =
    (Ok false, []) /\
  (exists out', validate_model_compatibility (loader_with plain_dict) [] =
                  (Ok true, out')) /\
  exists out', validate_model_compatibility
                 (loader_with forest_three_features) [] = (Ok false, out').
Proof.
  destruct (validate_model_compatibility_decides
              (init MODEL_PATH BANDS_SELECTED) []) as [Hnone _].
  destruct (validate_model_compatibility_decides (loader_with plain_dict) [])
    as (_ & Hsome & _).
  destruct (validate_model_compatibility_decides
              (loader_with forest_three_features) []) as (_ & Hthree & _).
  split; [exact (Hnone eq_refl) |]. split.
  - destruct (Hsome plain_dict eq_refl) as (b & out' & Hrun & _ & Hb).
    + intros v [[=] | [=]].
    + exists out'. rewrite <- (Hb eq_refl eq_refl). exact Hrun.
  - destruct (Hthree forest_three_features eq_refl)
      as (b & out' & Hrun & Hb & _).
    + intros v [[=] | [=]].
    + exists out'. destruct Hb as [_ Hb]. rewrite <- Hb; [exact Hrun |].
      left. exists (PyInt 3). split; [reflexivity | discriminate].
Defined.

(** C9, as stated, fails for the forest fitted on two targets: its feature
    names are a permutation of the configured bands and its feature count is
    their number, yet the validation does not succeed: it raises. *)
Lemma validate_permuted_names_raises :
  feature_names_in_ forest_two_outputs = Some (AttrArray bands_reversed) /\
  bands_reversed ≡ₚ PyStr <$> BANDS_SELECTED /\
  n_features_in_ forest_two_outputs =
    Some (PyInt (Z.of_nat (length BANDS_SELECTED))) /\
  validate_model_compatibility (loader_with forest_two_outputs) [] =
    (Raise (attribute_error "list" "tolist"), []).
Proof.
  split; [reflexivity |]. split; [| split; reflexivity].
  change (rev (PyStr <$> BANDS_SELECTED) ≡ₚ PyStr <$> BANDS_SELECTED).
  symmetry. apply Permutation_rev.
Qed.

(** C9 (amended). The name check compares sets, so the order of the names
    does not matter: for a loaded model whose [feature_names_in_] is an
    array and whose [classes_], if present, is an array, if the names are a
    permutation of the configured bands and the feature count, when the
    model exposes one, is the number of bands, validation returns [True]. *)
Theorem validate_names_order_insensitive (self : ModelLoader)
    (out : list message) (o : py_object) (names : list pyatom) :
  loaded_model self = Some o ->
  feature_names_in_ o = Some (AttrArray names) ->
  names ≡ₚ PyStr <$> bands_selected self ->
  (forall n, n_features_in_ o = Some n ->
     n = PyInt (Z.of_nat (length (bands_selected self)))) ->
  (forall v, classes_ o = Some v -> exists items, v = AttrArray items) ->
  validate_model_compatibility self out = (Ok true, out ++ [MsgCompatible]).
Proof.
  intros Hm Hf Hperm Hcount Hclasses.
  assert (Hinfo : info_error o = None).
  { apply info_error_arrays. intros v [Hv | Hv]; [| eauto].
    rewrite Hf in Hv. injection Hv as <-. eauto. }
  assert (Hc : compatible o (bands_selected self) = true).
  { apply not_false_iff_true. rewrite compatible_false.
    intros [(n & Hn & Hne) | (l & Hl & Hne)].
    - now apply Hcount in Hn.
    - rewrite Hf in Hl. injection Hl as <-.
      apply Hne. now apply list_to_set_perm_L. }
  rewrite (validate_run self o out Hm), Hinfo, Hc.
  now rewrite validation_messages_compatible.
Qed.

Lemma validate_names_order_insensitive_witness :
  feature_names_in_ forest_unlimited <>
    Some (AttrArray (PyStr <$> BANDS_SELECTED)) /\
  validate_model_compatibility (loader_with forest_unlimited) [] =
    (Ok true, [MsgCompatible]).
Proof.
  split; [discriminate |].
  apply (validate_names_order_insensitive (loader_with forest_unlimited) []
           forest_unlimited bands_reversed).
  - reflexivity.
  - reflexivity.
  - change (rev (PyStr <$> BANDS_SELECTED) ≡ₚ PyStr <$> BANDS_SELECTED).
    symmetry. apply Permutation_rev.
  - intros n [= <-]. reflexivity.
  - intros v [= <-]. eauto.
Defined.

(** [create_ee_model] keeps the path, the bands and the loaded object. *)
Lemma create_ee_model_frame
    (te : ee_classifier -> table -> option exn) (self self' : ModelLoader)
    (data : table) (out out' : list message) (r : option ee_classifier) :
  create_ee_model te self data out = (Ok (r, self'), out') ->
  model_path self' = model_path self /\
  bands_selected self' = bands_selected self /\
  loaded_model self' = loaded_model self.
Proof.
  destruct (loaded_model self) as [o |] eqn:Hm.
  - rewrite (create_ee_model_run te self data out o Hm).
    destruct (info_error o); [discriminate |].
    destruct (passes_maxDepth o); [discriminate |].
    destruct (te _ data); intros [= _ <- _]; repeat split; exact Hm.
  - unfold create_ee_model. rewrite Hm. py_simpl.
    intros [= _ <- _]. repeat split; exact Hm.
Qed.

(** ** load_and_create_ee_model *)

(** [load_model] on a fresh loader, by what ends up in [loaded_model]. *)
Lemma load_model_deserialize pl jl path bands out o :
  deserialize pl jl path = Some o ->
  load_model pl jl (init path bands) out =
    (Ok (true, set_loaded_model (init path bands) (Some o)),
     out ++ [loaded_message pl path]).
Proof.
  unfold deserialize, loaded_message. rewrite load_model_run.
  cbn [model_path init].
  destruct (pl path) as [v | e1]; [now intros -> |].
  destruct (jl path) as [v | e2]; [now intros -> | discriminate].
Qed.

Lemma deserialize_None pl jl path :
  deserialize pl jl path = None <->
  (exists e1 e2, pl path = Raise e1 /\ jl path = Raise e2) \/
  pl path = Ok None \/
  (exists e1, pl path = Raise e1) /\ jl path = Ok None.
Proof.
  unfold deserialize.
  destruct (pl path) as [v | e1].
  - split; [intros ->; tauto |].
    intros [(e1 & e2 & [=] & _) | [[= ->] | [[e1 [=]] _]]]. reflexivity.
  - destruct (jl path) as [v | e2].
    + split; [intros ->; right; right; eauto |].
      intros [(e1' & e2 & _ & [=]) | [[=] | [_ [= ->]]]]. reflexivity.
    + split; [eauto 6 | reflexivity].
Qed.

(** [load_and_create_ee_model] as the sequence of its three calls. *)
Lemma load_and_create_ee_model_run pl jl te path bands training_data out :
  load_and_create_ee_model pl jl te path bands training_data out =
    match load_model pl jl (init path bands) out with
    | (Ok (false, _), out1) => (Ok (None, None), out1)
    | (Ok (true, loader), out1) =>
        match validate_model_compatibility loader out1 with
        | (Ok compatible, out2) =>
            match create_ee_model te loader training_data
                    (if compatible then out2
                     else out2 ++ [MsgContinueDespiteWarning]) with
            | (Ok (r, loader'), out3) => (Ok (loaded_model loader', r), out3)
            | (Raise e, out3) => (Raise e, out3)
            end
        | (Raise e, out2) => (Raise e, out2)
        end
    | (Raise e, out1) => (Raise e, out1)
    end.
Proof.
  unfold load_and_create_ee_model. unfold bind at 1.
  destruct (load_model pl jl (init path bands) out) as [[[[] loader] | e] out1];
    [| reflexivity..].
  cbn [negb]. unfold bind at 1.
  destruct (validate_model_compatibility loader out1)
    as [[compatible | e] out2]; [| reflexivity].
  unfold bind at 1.
  destruct compatible; cbn [negb]; unfold print, ret, bind;
    destruct (create_ee_model te loader training_data _)
      as [[[r loader'] | e] out3]; reflexivity.
Qed.

(** A file that holds [None], and a reader that cannot read the file. *)
Lemma load_and_create_ee_model_returns_none_after_loading :
  load_model reads_none unreadable (init MODEL_PATH BANDS_SELECTED) [] =
    (Ok (true, init MODEL_PATH BANDS_SELECTED),
     [MsgLoadedPickle MODEL_PATH]) /\
  load_and_create_ee_model reads_none unreadable never_fails MODEL_PATH
      BANDS_SELECTED [] [] =
    (Ok (None, None),
     [MsgLoadedPickle MODEL_PATH; MsgContinueDespiteWarning; MsgNotLoaded]).
Proof. split; reflexivity. Qed.

(** C8 (amended). [load_and_create_ee_model] returns [None] for the model
    only together with [None] for the classifier, and only when no object
    has been loaded: both readers raise, or the reader that succeeds yields
    [None]; in both cases it returns [(None, None)].  When the model loads
    and [validate_model_compatibility] returns [False], the warning is
    printed and [create_ee_model] is still run on the loader: the function
    ends as that call ends, returning the loaded object together with what
    the call returns. *)
Theorem load_and_create_ee_model_validation_advisory
    (pl jl : string -> result (option py_object))
    (te : ee_classifier -> table -> option exn)
    (path : string) (bands : list string) (training_data : table)
    (out : list message) :
  (forall r out',
     load_and_create_ee_model pl jl te path bands training_data out
       = (Ok (None, r), out') ->
     r = None /\
     ((exists e1 e2, pl path = Raise e1 /\ jl path = Raise e2) \/
      pl path = Ok None \/
      (exists e1, pl path = Raise e1) /\ jl path = Ok None)) /\
  ((exists e1 e2, pl path = Raise e1 /\ jl path = Raise e2) \/
   pl path = Ok None \/
   (exists e1, pl path = Raise e1) /\ jl path = Ok None ->
   fst (load_and_create_ee_model pl jl te path bands training_data out)
     = Ok (None, None)) /\
  (forall loader out1 out2,
     load_model pl jl (init path bands) out = (Ok (true, loader), out1) ->
     validate_model_compatibility loader out1 = (Ok false, out2) ->
     load_and_create_ee_model pl jl te path bands training_data out =
       match create_ee_model te loader training_data
               (out2 ++ [MsgContinueDespiteWarning]) with
       | (Ok (r, _), out3) => (Ok (loaded_model loader, r), out3)
       | (Raise e, out3) => (Raise e, out3)
       end).
Proof.
  split; [| split].
  - intros r out' Hrun. rewrite <- deserialize_None.
    rewrite load_and_create_ee_model_run in Hrun.
    destruct (deserialize pl jl path) as [o |] eqn:Hd.
    + exfalso.
      rewrite (load_model_deserialize pl jl path bands out o Hd) in Hrun.
      match type of Hrun with
      | context [validate_model_compatibility ?l ?ou] =>
          rewrite (validate_run l o ou eq_refl) in Hrun
      end.
      destruct (info_error o) eqn:He; [discriminate |].
      match type of Hrun with
      | context [create_ee_model ?t ?l ?d ?ou] =>
          rewrite (create_ee_model_run t l d ou o eq_refl), He in Hrun
      end.
      destruct (passes_maxDepth o); [discriminate |].
      destruct (te _ training_data); discriminate.
    + split; [| reflexivity].
      rewrite load_model_run in Hrun. cbn [model_path init] in Hrun.
      unfold deserialize in Hd.
      destruct (pl path) as [v | e1];
        [subst v | destruct (jl path) as [v | e2]; [subst v |]];
        cbn in Hrun; congruence.
  - rewrite <- deserialize_None. intros Hd.
    rewrite load_and_create_ee_model_run, load_model_run.
    cbn [model_path init]. unfold deserialize in Hd.
    destruct (pl path) as [v | e1];
      [subst v | destruct (jl path) as [v | e2]; [subst v |]];
      reflexivity.
  - intros loader out1 out2 Hload Hval.
    rewrite load_and_create_ee_model_run, Hload, Hval.
    destruct (create_ee_model te loader training_data _)
      as [[[r loader'] | e] out3] eqn:Hc; [| reflexivity].
    apply create_ee_model_frame in Hc as (_ & _ & ->). reflexivity.
Qed.

(** A forest trained on three features does not fit the seven bands, and is
    re-created all the same. *)
Lemma load_and_create_ee_model_validation_advisory_witness :
  fst (validate_model_compatibility (loader_with forest_three_features) [])
    = Ok false /\
  fst (load_and_create_ee_model (fun _ => Ok (Some forest_three_features))
         unreadable never_fails MODEL_PATH BANDS_SELECTED [] []) =
    Ok (Some forest_three_features,
        Some (Trained (smileRandomForest (PyInt 50)) [] "FaseNumerik"
                BANDS_SELECTED)).
Proof.
  split; [reflexivity |].
  destruct (load_and_create_ee_model_validation_advisory
              (fun _ => Ok (Some forest_three_features)) unreadable
              never_fails MODEL_PATH BANDS_SELECTED [] [])
    as (_ & _ & H).
  rewrite (H (loader_with forest_three_features)
             [MsgLoadedPickle MODEL_PATH]
             [MsgLoadedPickle MODEL_PATH;
              MsgFeatureCountWarning (PyAtom (PyInt 3)) 7]
             eq_refl eq_refl).
  reflexivity.
Defined.

(** ** The fallback model *)

Section Fallback.

Variable pl jl : string -> result (option py_object).
Variable te : ee_classifier -> table -> option exn.
Variable rv : Z -> nat -> gmap string eeval -> Q.
Variable ta : table -> ee_classifier -> result Q.

Lemma create_fallback_model_run data bands n_trees out :
  create_fallback_model te rv ta data bands n_trees out =
    match te (smileRandomForest (PyInt n_trees))
             (fallback_train_set rv data) with
    | Some e => (Raise e, out ++ [MsgCreatingFallback n_trees])
    | None =>
        (Ok (fallback_forest rv data bands n_trees),
         (out ++ [MsgCreatingFallback n_trees])
           ++ [fallback_report rv ta data bands n_trees])
    end.
Proof.
  unfold create_fallback_model, fallback_report, fallback_forest, train.
  rewrite smileRandomForest_positional. py_simpl.
  destruct (te _ _); [reflexivity |].
  now destruct (ta _ _).
Qed.

(** Every row of the random column carries a number under ['random']. *)
Lemma randomColumn_has_value data name seed row :
  row ∈ randomColumn rv data name seed ->
  exists q, row !! name = Some (EEFloat q).
Proof.
  unfold randomColumn. intros Hin.
  apply list_elem_of_lookup in Hin as [i Hi].
  rewrite list_lookup_imap in Hi.
  apply fmap_Some in Hi as (r & _ & ->).
  eexists. apply lookup_insert_eq.
Qed.

Lemma randomColumn_length data name seed :
  length (randomColumn rv data name seed) = length data.
Proof. unfold randomColumn. apply length_imap. Qed.

Lemma filter_complement_perm {A} (f g : A -> bool) (l : list A) :
  (forall x, x ∈ l -> g x = negb (f x)) ->
  List.filter f l ++ List.filter g l ≡ₚ l.
Proof.
  induction l as [| x l IH]; intros Hfg; [reflexivity |].
  cbn. rewrite (Hfg x) by apply list_elem_of_here.
  assert (IH' : List.filter f l ++ List.filter g l ≡ₚ l).
  { apply IH. intros y Hy. apply Hfg. now apply list_elem_of_further. }
  destruct (f x); cbn.
  - now rewrite IH'.
  - rewrite <- Permutation_middle. now rewrite IH'.
Qed.

(** Section 6 of the script as the sequence of its calls. *)
Lemma muat_model_run data out :
  muat_model pl jl te rv ta data out =
    let fallback out' :=
      match create_fallback_model te rv ta data BANDS_SELECTED 200
              (out' ++ [MsgUsingFallback]) with
      | (Ok m, out'') => (Ok m, out'' ++ [MsgFallbackCreated])
      | (Raise e, out'') => (Raise e, out'')
      end in
    let with_fallback loader out' :=
      match fallback out' with
      | (Ok m, out'') => (Ok (Some m, false, loader), out'')
      | (Raise e, out'') => (Raise e, out'')
      end in
    match load_model pl jl (init MODEL_PATH BANDS_SELECTED)
            (out ++ [MsgLoadingWithLoader]) with
    | (Ok (false, loader), out1) => with_fallback loader out1
    | (Ok (true, loader), out1) =>
        match validate_model_compatibility loader out1 with
        | (Ok false, out2) =>
            with_fallback loader (out2 ++ [MsgIncompatibleUseFallback])
        | (Ok true, out2) =>
            match create_ee_model te loader data out2 with
            | (Ok (Some m, loader'), out3) =>
                (Ok (Some m, true, loader'), out3 ++ [MsgConverted])
            | (Ok (None, loader'), out3) =>
                with_fallback loader' (out3 ++ [MsgEECreateFailed])
            | (Raise e, out3) => (Raise e, out3)
            end
        | (Raise e, out2) => (Raise e, out2)
        end
    | (Raise e, out1) => (Raise e, out1)
    end.
Proof.
  unfold muat_model. unfold bind at 1. unfold print at 1.
  unfold bind at 1.
  destruct (load_model pl jl _ _) as [[[loaded loader] | e] out1];
    [| reflexivity].
  unfold bind at 1.
  destruct loaded.
  - unfold bind at 1.
    destruct (validate_model_compatibility loader out1)
      as [[compatible | e] out2]; [| reflexivity].
    destruct compatible.
    + unfold bind at 1.
      destruct (create_ee_model te loader data out2)
        as [[[[m |] loader'] | e] out3]; [| | reflexivity].
      * reflexivity.
      * py_simpl.
        destruct (create_fallback_model _ _ _ _ _ _ _) as [[m | e] out4];
          reflexivity.
    + py_simpl.
      destruct (create_fallback_model _ _ _ _ _ _ _) as [[m | e] out4];
        reflexivity.
  - py_simpl.
    destruct (create_fallback_model _ _ _ _ _ _ _) as [[m | e] out4];
      reflexivity.
Qed.

(** Section 6 for a file that holds an object, up to the fallback. *)
Lemma muat_model_loaded data out o :
  deserialize pl jl MODEL_PATH = Some o ->
  let loader := set_loaded_model (init MODEL_PATH BANDS_SELECTED) (Some o) in
  let out1 := out ++ [MsgLoadingWithLoader; loaded_message pl MODEL_PATH] in
  let with_fallback loader out' :=
    match create_fallback_model te rv ta data BANDS_SELECTED 200
            (out' ++ [MsgUsingFallback]) with
    | (Ok m, out'') => (Ok (Some m, false, loader), out'' ++ [MsgFallbackCreated])
    | (Raise e, out'') => (Raise e, out'')
    end in
  muat_model pl jl te rv ta data out =
    match info_error o with
    | Some e => (Raise e, out1)
    | None =>
        let out2 := out1 ++ validation_messages o BANDS_SELECTED in
        if compatible o BANDS_SELECTED then
          if passes_maxDepth o then
            (Raise (unexpected_keyword "maxDepth"),
             out2 ++ creation_messages o)
          else
            let trained :=
              Trained (forest_for o) data "FaseNumerik" BANDS_SELECTED in
            match te (forest_for o) data with
            | None =>
                (Ok (Some trained, true, set_ee_model loader trained),
                 out2 ++ creation_messages o ++ [MsgEETrained; MsgConverted])
            | Some e =>
                with_fallback (set_ee_model loader (forest_for o))
                  (out2 ++ creation_messages o
                     ++ [MsgEETrainError e; MsgEECreateFailed])
            end
        else with_fallback loader (out2 ++ [MsgIncompatibleUseFallback])
    end.
Proof.
  intros Hd loader out1 with_fallback. subst with_fallback.
  rewrite muat_model_run. cbv zeta.
  rewrite (load_model_deserialize pl jl _ _ _ o Hd). fold loader.
  rewrite (validate_run loader o _ eq_refl).
  replace ((out ++ [MsgLoadingWithLoader]) ++ [loaded_message pl MODEL_PATH])
    with out1 by (subst out1; now rewrite <- app_assoc).
  destruct (info_error o) as [e |] eqn:He; [reflexivity |].
  cbn [bands_selected loader set_loaded_model init].
  destruct (compatible o BANDS_SELECTED).
  - rewrite (create_ee_model_run te loader data _ o eq_refl), He.
    destruct (passes_maxDepth o); [reflexivity |].
    cbn [bands_selected loader set_loaded_model init].
    destruct (te (forest_for o) data).
    + rewrite <- !app_assoc.
      destruct (create_fallback_model _ _ _ _ _ _ _) as [[m | e'] out4];
        reflexivity.
    + now rewrite <- !app_assoc.
  - destruct (create_fallback_model _ _ _ _ _ _ _) as [[m | e'] out4];
      reflexivity.
Qed.

(** How the call of the fallback ends. *)
Lemma fallback_outcome data loader out' :
  script_outcome
    (fst match create_fallback_model te rv ta data BANDS_SELECTED 200
                 (out' ++ [MsgUsingFallback]) with
         | (Ok m, out'') =>
             (Ok (Some m, false, loader), out'' ++ [MsgFallbackCreated])
         | (Raise e, out'') => (Raise e, out'')
         end) =
    match te (smileRandomForest (PyInt 200)) (fallback_train_set rv data) with
    | None => Ok (Some (fallback_forest rv data BANDS_SELECTED 200), false)
    | Some e => Raise e
    end.
Proof. rewrite create_fallback_model_run. now destruct (te _ _). Qed.

(** Section 6 for a file that gives no object: the fallback is called. *)
Lemma muat_model_no_object data out :
  deserialize pl jl MODEL_PATH = None ->
  script_outcome (fst (muat_model pl jl te rv ta data out)) =
    match te (smileRandomForest (PyInt 200)) (fallback_train_set rv data) with
    | None => Ok (Some (fallback_forest rv data BANDS_SELECTED 200), false)
    | Some e => Raise e
    end.
Proof.
  intros Hd. rewrite muat_model_run. cbv zeta. rewrite load_model_run.
  cbn [model_path init]. unfold deserialize in Hd.
  destruct (pl MODEL_PATH) as [v | e1];
    [subst v | destruct (jl MODEL_PATH) as [v | e2]; [subst v |]].
  1, 2: unfold validate_model_compatibility;
        cbn [loaded_model set_loaded_model init]; unfold ret.
  all: rewrite create_fallback_model_run; now destruct (te _ _).
Qed.

End Fallback.

(** C6, on the program: when the file holds a compatible forest whose
    [max_depth] is truthy, the Earth Engine model cannot be created, and no
    fallback is trained: the exception of the [maxDepth] call leaves
    [create_ee_model] and ends section 6 before the script reaches the
    fallback, whatever the training call, the random column and the accuracy
    would give. *)
Theorem fallback_skipped_when_maxDepth_raises
    (pl jl : string -> result (option py_object))
    (te : ee_classifier -> table -> option exn)
    (rv : Z -> nat -> gmap string eeval -> Q)
    (ta : table -> ee_classifier -> result Q)
    (data_latih : table) (out : list message) (o : py_object) :
  deserialize pl jl MODEL_PATH = Some o ->
  info_error o = None ->
  compatible o BANDS_SELECTED = true ->
  passes_maxDepth o = true ->
  muat_model pl jl te rv ta data_latih out =
    (Raise (unexpected_keyword "maxDepth"),
     out ++ [MsgLoadingWithLoader; loaded_message pl MODEL_PATH;
             MsgCompatible] ++ creation_messages o).
Proof.
  intros Hd He Hc Hp.
  rewrite (muat_model_loaded pl jl te rv ta data_latih out o Hd). cbv zeta.
  rewrite He, Hc, Hp, (validation_messages_compatible _ _ Hc).
  now rewrite <- !app_assoc.
Qed.

(** The model file holds the forest of 50 trees with [max_depth=5]. *)
Lemma fallback_skipped_when_maxDepth_raises_witness :
  muat_model (fun _ => Ok (Some forest_seven_bands)) unreadable
      never_fails half_steps perfect_accuracy three_rows [] =
    (Raise (unexpected_keyword "maxDepth"),
     [MsgLoadingWithLoader; MsgLoadedPickle MODEL_PATH; MsgCompatible;
      MsgModelInfo (Some (info_of forest_seven_bands));
      MsgCreatingForest (PyInt 50); MsgMaxDepth (PyInt 5)]).
Proof.
  apply (fallback_skipped_when_maxDepth_raises
           (fun _ => Ok (Some forest_seven_bands)) unreadable never_fails
           half_steps perfect_accuracy three_rows [] forest_seven_bands);
    reflexivity.
Defined.

(** ** konversi_label_numerik *)

Lemma fase_numerik_spec (t : string) :
  (t = "vegetatif 1" -> fase_numerik t = 1) /\
  (t = "vegetatif 2" -> fase_numerik t = 2) /\
  (t = "generatif" -> fase_numerik t = 3) /\
  (t = "panen" -> fase_numerik t = 4) /\
  (t = "bera" -> fase_numerik t = 5) /\
  (t ∉ phase_names -> fase_numerik t = 0).
Proof.
  repeat split; try (intros ->; reflexivity).
  intros Hnot. unfold fase_numerik, phase_names in *.
  repeat match goal with
         | |- context [String.eqb t ?x] =>
             destruct (String.eqb_spec t x) as [Heq | _];
             [exfalso; apply Hnot; rewrite Heq; set_solver |]
         end.
  reflexivity.
Qed.

(** C3. For a feature whose property ['Fase'] is a text, the conversion
    always succeeds and stores an integer under ['FaseNumerik'], leaving the
    geometry and the other properties as they were: with the text
    lower-cased and trimmed, 'vegetatif 1' gives 1, 'vegetatif 2' gives 2,
    'generatif' gives 3, 'panen' gives 4, 'bera' gives 5, and every other
    text gives 0. *)
Theorem konversi_label_numerik_codes (toLowerCase trim : string -> string)
    (feature : Feature) (s : string) :
  properties feature !! "Fase" = Some (EEStr s) ->
  exists code,
    konversi_label_numerik toLowerCase trim feature =
      Some {| geometry := geometry feature;
              properties :=
                <["FaseNumerik" := EEInt code]> (properties feature) |} /\
    let t := trim (toLowerCase s) in
    (t = "vegetatif 1" -> code = 1) /\
    (t = "vegetatif 2" -> code = 2) /\
    (t = "generatif" -> code = 3) /\
    (t = "panen" -> code = 4) /\
    (t = "bera" -> code = 5) /\
    (t ∉ phase_names -> code = 0).
Proof.
  intros Hfase. exists (fase_numerik (trim (toLowerCase s))).
  split; [| apply fase_numerik_spec].
  unfold konversi_label_numerik, get_String. now rewrite Hfase.
Qed.

Lemma konversi_label_numerik_codes_witness :
  let konversi := konversi_label_numerik toLowerCase_bytes trim_bytes in
  (properties <$> konversi (titik "  Vegetatif 2 ")) ≫=
    (fun m => m !! "FaseNumerik") = Some (EEInt 2) /\
  (properties <$> konversi (titik "PANEN")) ≫=
    (fun m => m !! "FaseNumerik") = Some (EEInt 4) /\
  (properties <$> konversi (titik "Tidak diketahui")) ≫=
    (fun m => m !! "FaseNumerik") = Some (EEInt 0).
Proof.
  intros konversi. subst konversi.
  destruct (konversi_label_numerik_codes toLowerCase_bytes trim_bytes
              (titik "  Vegetatif 2 ") "  Vegetatif 2 " eq_refl)
    as (c2 & -> & _ & H2 & _).
  destruct (konversi_label_numerik_codes toLowerCase_bytes trim_bytes
              (titik "PANEN") "PANEN" eq_refl)
    as (c4 & -> & _ & _ & _ & H4 & _).
  destruct (konversi_label_numerik_codes toLowerCase_bytes trim_bytes
              (titik "Tidak diketahui") "Tidak diketahui" eq_refl)
    as (c0 & -> & _ & _ & _ & _ & _ & H0).
  cbn [fmap option_fmap option_map mbind option_bind properties].
  rewrite !lookup_insert_eq.
  rewrite (H2 eq_refl), (H4 eq_refl).
  rewrite H0; [repeat split |].
  vm_compute. intros H. repeat (inversion H as [| ? ? ? H']; clear H;
                                 try discriminate; rename H' into H).
Defined.

(** ** klasifikasi_collection *)

Section ClassificationProperties.

Variable classify : Image -> ee_classifier -> Image.
Variable Date_format : eeval -> string -> option string.

(** One image: the classification, renamed, with the two properties. *)
Lemma klasifikasi_image_ok model image time_start tanggal :
  length (bands (classify image model)) = 1%nat ->
  image_properties image !! "system:time_start" = Some time_start ->
  Date_format time_start "YYYY-MM-dd" = Some tanggal ->
  exists o,
    klasifikasi_image classify Date_format model image = Some o /\
    bandNames o = ["classification"] /\
    (bands o).*2 = (bands (classify image model)).*2 /\
    image_properties o !! "system:time_start" = Some time_start /\
    image_properties o !! "tanggal" = Some (EEStr tanggal).
Proof.
  intros Hone Hts Hfmt. unfold klasifikasi_image, Image_rename.
  cbn [length].
  destruct (decide (1%nat = length (bands (classify image model))))
    as [_ | Hne]; [| congruence].
  cbn [mbind option_bind]. rewrite Hts. cbn [mbind option_bind].
  rewrite Hfmt. cbn [mbind option_bind].
  eexists. split; [reflexivity |].
  destruct (bands (classify image model)) as [| [name r] [| ? ?]];
    try discriminate.
  unfold bandNames. cbn. rewrite lookup_insert_ne by discriminate.
  now rewrite !lookup_insert_eq.
Qed.

(** C5. If classifying an image gives one band and every image of the
    collection has a ['system:time_start'] that is a date, the collection
    is computed; it has as many images as the input, and the image at each
    position is the classification of the input image at that position,
    as the single band 'classification', with ['system:time_start'] equal
    to that of the input image and ['tanggal'] equal to that timestamp
    formatted with 'YYYY-MM-dd'. *)
Theorem klasifikasi_collection_tags_every_image
    (model : ee_classifier) (collection : list Image) :
  (forall image, image ∈ collection ->
     length (bands (classify image model)) = 1%nat /\
     exists time_start tanggal,
       image_properties image !! "system:time_start" = Some time_start /\
       Date_format time_start "YYYY-MM-dd" = Some tanggal) ->
  exists hasil,
    klasifikasi_collection classify Date_format model collection
      = Some hasil /\
    length hasil = length collection /\
    (forall i image, collection !! i = Some image ->
       exists o time_start tanggal,
         hasil !! i = Some o /\
         bandNames o = ["classification"] /\
         (bands o).*2 = (bands (classify image model)).*2 /\
         image_properties image !! "system:time_start" = Some time_start /\
         image_properties o !! "system:time_start" = Some time_start /\
         Date_format time_start "YYYY-MM-dd" = Some tanggal /\
         image_properties o !! "tanggal" = Some (EEStr tanggal)).
Proof.
  intros Hall. unfold klasifikasi_collection.
  assert (Hsome : is_Some (mapM (klasifikasi_image classify Date_format
                                   model) collection)).
  { apply mapM_is_Some, Forall_forall. intros image Hin.
    destruct (Hall image Hin) as (Hone & ts & d & Hts & Hfmt).
    destruct (klasifikasi_image_ok model image ts d Hone Hts Hfmt)
      as (o & Ho & _). exists o. exact Ho. }
  destruct Hsome as [hasil Hmap]. exists hasil.
  split; [assumption |].
  split; [symmetry; eapply length_mapM; eassumption |].
  intros i image Hi.
  destruct (Hall image) as (Hone & ts & d & Hts & Hfmt).
  { eapply list_elem_of_lookup_2; eassumption. }
  destruct (klasifikasi_image_ok model image ts d Hone Hts Hfmt)
    as (o & Ho & Hnames & Hbands & Hp1 & Hp2).
  exists o, ts, d. repeat split; try assumption.
  apply mapM_Some in Hmap.
  destruct (Forall2_lookup_l _ _ _ _ _ Hmap Hi) as (o' & Ho' & Heq).
  congruence.
Qed.

End ClassificationProperties.

Lemma klasifikasi_collection_tags_every_image_witness :
  exists hasil,
    klasifikasi_collection classify_constant format_new_year
      (smileRandomForest (PyInt 200)) [citra_new_year; citra_new_year]
      = Some hasil /\
    length hasil = 2%nat.
Proof.
  destruct (klasifikasi_collection_tags_every_image classify_constant
              format_new_year (smileRandomForest (PyInt 200))
              [citra_new_year; citra_new_year])
    as (hasil & Hrun & Hlen & _).
  - intros image Hin. split; [reflexivity |].
    exists (EEInt 1704067200000), "2024-01-01".
    assert (image = citra_new_year) as ->; [| split; reflexivity].
    apply list_elem_of_In in Hin. cbn in Hin. intuition congruence.
  - exists hasil. split; assumption.
Defined.

(** ** clear_layers *)

(** [str_in] is Python's substring test. *)
Lemma app_cons (c : ascii) (a b : string) :
  (String c a ++ b)%string = String c (a ++ b)%string.
Proof. reflexivity. Qed.

Lemma prefix_app (sub s : string) :
  String.prefix sub s = true <-> exists b, s = (sub ++ b)%string.
Proof.
  revert s. induction sub as [| c sub IH]; intros s.
  - split; [intros _; now exists s | intros _; now destruct s].
  - destruct s as [| d s]; cbn;
      [split; [discriminate | intros [b Hb]; discriminate] |].
    destruct (Ascii.ascii_dec c d) as [-> | Hne].
    + rewrite IH. split; intros [b Hb]; exists b; rewrite app_cons in *;
        congruence.
    + split; [discriminate |].
      intros [b Hb]. rewrite app_cons in Hb. congruence.
Qed.

Lemma str_in_spec (sub s : string) :
  str_in sub s = true <-> exists a b, s = (a ++ sub ++ b)%string.
Proof.
  induction s as [| c s IH]; cbn [str_in]; rewrite orb_true_iff, prefix_app.
  - split.
    + intros [[b Hb] | Hf]; [| discriminate]. now exists EmptyString, b.
    + intros (a & b & Hab). left. exists b.
      destruct a; [assumption | discriminate].
  - rewrite IH. split.
    + intros [[b Hb] | (a & b & Hab)].
      * now exists EmptyString, b.
      * exists (String c a), b. rewrite app_cons. now rewrite Hab.
    + intros (a & b & Hab). destruct a as [| d a].
      * left. now exists b.
      * right. exists a, b. rewrite app_cons in Hab. congruence.
Qed.

(** The layers the callback is written to remove. *)
Lemma is_temporal_layer_spec (name : string) :
  is_temporal_layer name = true <->
  (exists a b, name = (a ++ "Klasifikasi" ++ b)%string) /\
  name <> "Klasifikasi Mean".
Proof.
  unfold is_temporal_layer.
  rewrite andb_true_iff, str_in_spec, negb_true_iff.
  now rewrite String.eqb_neq.
Qed.

(** C10, on the program: [Map.layers] is a tuple, so [Map.layers.keys()]
    raises [AttributeError] before the loop is entered.  Whatever
    [Map.remove_layer] would do, the callback removes no layer, not even
    those whose name contains 'Klasifikasi' and is not 'Klasifikasi Mean',
    and does not print its message: it leaves the layers as they were and
    the output widget empty. *)
Theorem clear_layers_removes_nothing {Layer : Type}
    (Map_remove_layer :
       string -> list (string * Layer) -> result (list (string * Layer)))
    (w : MapWidget Layer) :
  fst (clear_layers Map_remove_layer w) =
    Raise (attribute_error "tuple" "keys") /\
  layers (snd (clear_layers Map_remove_layer w)) = layers w /\
  output_widget (snd (clear_layers Map_remove_layer w)) = [] /\
  (forall name layer,
     (exists a b, name = (a ++ "Klasifikasi" ++ b)%string) ->
     name <> "Klasifikasi Mean" ->
     (name, layer) ∈ layers w ->
     (name, layer) ∈ layers (snd (clear_layers Map_remove_layer w))).
Proof.
  unfold clear_layers, tuple_keys. cbn [fst snd layers output_widget].
  repeat split. intros name layer _ _ Hin. exact Hin.
Qed.

(** The map with two temporal layers, and a [Map.remove_layer] that would
    remove the layers of the given name. *)
Lemma clear_layers_removes_nothing_witness :
  is_temporal_layer "Klasifikasi 2024-06-01 s.d. 2024-08-31" = true /\
  ("Klasifikasi 2024-06-01 s.d. 2024-08-31", 4%nat)
    ∈ layers (snd (clear_layers remove_by_name peta)).
Proof.
  split; [reflexivity |].
  apply (clear_layers_removes_nothing remove_by_name peta).
  - exists "", " 2024-06-01 s.d. 2024-08-31". reflexivity.
  - discriminate.
  - cbn. rewrite !elem_of_cons. tauto.
Defined.

(** * Further properties of the loader *)

(** ** create_ee_model on every loader *)

(** X1. [create_ee_model] raises in two cases only, both before the [try]:
    when [get_model_info] cannot convert an attribute of the loaded object,
    and when the object is a forest with a truthy [max_depth], whose
    [maxDepth] the Earth Engine constructor refuses.  In every other case
    it returns (a training error is caught), it only appends to the output
    and it never changes [model_path], [bands_selected] or [loaded_model].
    Without a loaded model it returns [None], prints one message and leaves
    the loader as it was, whatever the training call would do. *)
Theorem create_ee_model_preserves_loader
    (te : ee_classifier -> table -> option exn) (self : ModelLoader)
    (training_data : table) (out : list message) :
  (forall e out',
     create_ee_model te self training_data out = (Raise e, out') <->
     exists o, loaded_model self = Some o /\
       (info_error o = Some e /\ out' = out \/
        info_error o = None /\ passes_maxDepth o = true /\
        e = unexpected_keyword "maxDepth" /\
        out' = out ++ creation_messages o)) /\
  (forall r self' out',
     create_ee_model te self training_data out = (Ok (r, self'), out') ->
     (exists printed, out' = out ++ printed) /\
     model_path self' = model_path self /\
     bands_selected self' = bands_selected self /\
     loaded_model self' = loaded_model self) /\
  (loaded_model self = None ->
     create_ee_model te self training_data out =
       (Ok (None, self), out ++ [MsgNotLoaded])).
Proof.
  split; [| split].
  - intros e out'. destruct (loaded_model self) as [o |] eqn:Hm.
    + rewrite (create_ee_model_run te self training_data out o Hm).
      destruct (info_error o) as [e0 |] eqn:He.
      * split.
        -- intros [= <- <-]. exists o. split; [reflexivity |]. now left.
        -- intros (o' & [= <-] & [[Hi ->] | (Hi & _)]); congruence.
      * destruct (passes_maxDepth o) eqn:Hp.
        -- split.
           ++ intros [= <- <-]. exists o. split; [reflexivity |].
              right. repeat split; assumption.
           ++ intros (o' & [= <-] & [[Hi _] | (_ & _ & -> & ->)]);
                [congruence | reflexivity].
        -- split.
           ++ destruct (te _ training_data); discriminate.
           ++ intros (o' & [= <-] & [[Hi _] | (_ & Hp' & _)]); congruence.
    + unfold create_ee_model. rewrite Hm. py_simpl.
      split; [discriminate | intros (o & [=] & _)].
  - intros r self' out' Hrun. split.
    + destruct (loaded_model self) as [o |] eqn:Hm.
      * rewrite (create_ee_model_run te self training_data out o Hm) in Hrun.
        destruct (info_error o); [discriminate |].
        destruct (passes_maxDepth o); [discriminate |].
        destruct (te _ training_data); injection Hrun as _ _ <-; eauto.
      * unfold create_ee_model in Hrun. rewrite Hm in Hrun. py_simpl.
        injection Hrun as _ _ <-. eauto.
    + eapply create_ee_model_frame, Hrun.
  - intros Hm. unfold create_ee_model. now rewrite Hm.
Qed.

(** X2. [create_ee_model] returns [None] exactly when no model is loaded or
    the training of the instantiated classifier raises; any classifier it
    returns is the forest instantiated for the object ([n_estimators] trees
    for a [RandomForestClassifier], 100 if the attribute is missing or the
    object is of another type), trained on the given table with class
    property 'FaseNumerik' and the loader's bands, and is the one stored in
    [ee_model]. *)
Theorem create_ee_model_none_iff
    (te : ee_classifier -> table -> option exn) (self : ModelLoader)
    (training_data : table) (out : list message)
    (r : option ee_classifier) (self' : ModelLoader) (out' : list message) :
  create_ee_model te self training_data out = (Ok (r, self'), out') ->
  (r = None <->
     loaded_model self = None \/
     exists o e, loaded_model self = Some o /\
                 te (forest_for o) training_data = Some e) /\
  (forall m, r = Some m ->
     exists o, loaded_model self = Some o /\
       m = Trained (forest_for o) training_data "FaseNumerik"
             (bands_selected self) /\
       ee_model self' = Some m /\
       forest_for o =
         smileRandomForest
           (if is_RandomForestClassifier o
            then getattr (n_estimators o) (PyInt 100) else PyInt 100)).
Proof.
  destruct (loaded_model self) as [o |] eqn:Hm.
  - rewrite (create_ee_model_run te self training_data out o Hm).
    destruct (info_error o); [discriminate |].
    destruct (passes_maxDepth o); [discriminate |].
    destruct (te (forest_for o) training_data) as [e |] eqn:Hte;
      intros [= <- <- _]; split.
    + split; [intros _; right; eauto | reflexivity].
    + discriminate.
    + split; [discriminate |].
      intros [[=] | (o' & e & [= <-] & He)]. congruence.
    + intros m [= <-]. exists o. repeat split.
      unfold forest_for. now destruct (is_RandomForestClassifier o).
  - unfold create_ee_model. rewrite Hm. py_simpl.
    intros [= <- <- _]. split; [split; [now left | reflexivity] |].
    discriminate.
Qed.

Lemma create_ee_model_none_iff_witness :
  (exists self' out',
     create_ee_model always_fails (loader_with forest_unlimited) three_rows []
       = (Ok (None, self'), out')) /\
  exists o e,
    loaded_model (loader_with forest_unlimited) = Some o /\
    always_fails (forest_for o) three_rows = Some e.
Proof.
  eassert (Hrun : create_ee_model always_fails (loader_with forest_unlimited)
                    three_rows [] = (Ok (None, _), _))
    by (vm_compute; reflexivity).
  split; [eauto |].
  destruct (create_ee_model_none_iff _ _ _ _ _ _ _ Hrun) as [[Hnone _] _].
  destruct (Hnone eq_refl) as [Hno | Hfail]; [discriminate | exact Hfail].
Defined.

(** ** validate_model_compatibility as a function of sets *)

(** X3. The verdict of [validate_model_compatibility] depends on the feature
    names and on the bands only through their sets and through the number
    of bands: two loaders whose models can be read and expose the same
    feature count and the same set of names, and whose band lists have the
    same length and the same set, get the same verdict. *)
Theorem validate_depends_on_sets
    (self1 self2 : ModelLoader) (o1 o2 : py_object)
    (out1 out2 : list message) :
  loaded_model self1 = Some o1 ->
  loaded_model self2 = Some o2 ->
  info_error o1 = None ->
  info_error o2 = None ->
  n_features_in_ o1 = n_features_in_ o2 ->
  list_to_set <$> array_items (feature_names_in_ o1) =@{option (gset pyatom)}
    list_to_set <$> array_items (feature_names_in_ o2) ->
  length (bands_selected self1) = length (bands_selected self2) ->
  list_to_set (PyStr <$> bands_selected self1) =@{gset pyatom}
    list_to_set (PyStr <$> bands_selected self2) ->
  fst (validate_model_compatibility self1 out1) =
  fst (validate_model_compatibility self2 out2).
Proof.
  intros Hm1 Hm2 He1 He2 Hcount Hnames Hlen Hbands.
  rewrite (validate_run self1 o1 out1 Hm1), (validate_run self2 o2 out2 Hm2).
  rewrite He1, He2. cbn [fst]. f_equal. unfold compatible. f_equal.
  - unfold count_matches. now rewrite Hcount, Hlen.
  - unfold names_match.
    destruct (array_items (feature_names_in_ o1)),
             (array_items (feature_names_in_ o2));
      cbn in Hnames; try discriminate; [| reflexivity].
    injection Hnames as Hnames. now rewrite Hnames, Hbands.
Qed.

(** Two fitted forests whose names come in different orders, checked
    against the bands in two orders. *)
Lemma validate_depends_on_sets_witness :
  feature_names_in_ forest_unlimited <> feature_names_in_ forest_plain_names /\
  fst (validate_model_compatibility (loader_with forest_unlimited) []) =
  fst (validate_model_compatibility
         (set_loaded_model
            (init MODEL_PATH
               ["angle"; "VV_int"; "VH_int"; "RVI"; "RPI"; "NDPI"; "API"])
            (Some forest_plain_names))
         [MsgLoadedPickle MODEL_PATH]).
Proof.
  split; [discriminate |].
  apply (validate_depends_on_sets (loader_with forest_unlimited) _
           forest_unlimited forest_plain_names); reflexivity.
Defined.

(** ** create_fallback_model and the accuracy *)

(** X4. [create_fallback_model] swallows every error of the accuracy
    evaluation: what it returns does not depend on the evaluation at all.
    It raises exactly when the training call raises, with that exception,
    and otherwise returns the forest of [n_trees] trees trained on the
    training part of the split. *)
Theorem create_fallback_model_ignores_accuracy
    (te : ee_classifier -> table -> option exn)
    (rv : Z -> nat -> gmap string eeval -> Q)
    (ta ta' : table -> ee_classifier -> result Q)
    (training_data : table) (bands : list string) (n_trees : Z)
    (out : list message) :
  fst (create_fallback_model te rv ta training_data bands n_trees out) =
  fst (create_fallback_model te rv ta' training_data bands n_trees out) /\
  fst (create_fallback_model te rv ta training_data bands n_trees out) =
    match te (smileRandomForest (PyInt n_trees))
             (fallback_train_set rv training_data) with
    | Some e => Raise e
    | None => Ok (fallback_forest rv training_data bands n_trees)
    end.
Proof.
  rewrite !create_fallback_model_run.
  destruct (te _ _); split; reflexivity.
Qed.

(** X25. The split of [create_fallback_model]: the random column has one
    row per row of the table, each with a number under ['random']; the
    training set holds the rows whose number is below 0.8, the test set
    those at or above it, and together they share out the rows of the
    random column. *)
Theorem create_fallback_model_split
    (rv : Z -> nat -> gmap string eeval -> Q) (training_data : table) :
  fallback_train_set rv training_data ++ fallback_test_set rv training_data
    ≡ₚ randomColumn rv training_data "random" 42 /\
  length (randomColumn rv training_data "random" 42) = length training_data /\
  (forall row, row ∈ randomColumn rv training_data "random" 42 ->
     exists q, row !! "random" = Some (EEFloat q) /\
       (row ∈ fallback_train_set rv training_data <-> (q < 8 # 10)%Q) /\
       (row ∈ fallback_test_set rv training_data <-> (8 # 10 <= q)%Q)).
Proof.
  unfold fallback_train_set, fallback_test_set, fallback_data_acak.
  split; [| split].
  - apply filter_complement_perm. intros row Hin.
    apply randomColumn_has_value in Hin as [q Hq].
    unfold Filter_lt, Filter_gte. rewrite Hq. cbn.
    now rewrite negb_involutive.
  - apply randomColumn_length.
  - intros row Hin.
    destruct (randomColumn_has_value _ _ _ _ _ Hin) as [q Hq].
    exists q. split; [assumption |].
    rewrite !list_elem_of_In, !filter_In, <- !list_elem_of_In.
    unfold Filter_lt, Filter_gte, split_threshold. rewrite Hq. cbn.
    rewrite negb_true_iff, <- not_true_iff_false, Qle_bool_iff.
    split; split.
    + intros [_ Hn]. now apply Qnot_le_lt.
    + intros Hlt. split; [assumption |]. now apply Qlt_not_le.
    + now intros [_ Hle].
    + intros Hle. now split.
Qed.

(** ** load_and_create_ee_model and the verdict of the validation *)

(** X5. When a reader yields an object whose information can be read,
    [load_and_create_ee_model] ends as [create_ee_model] ends on it: with
    the exception of the [maxDepth] call for a forest with a truthy
    [max_depth], and otherwise with the loaded object together with the
    classifier instantiated for it and trained on the given table, or with
    [None] when that training raises.  The outcome does not depend on the
    verdict of the validation: the feature count and the feature names of
    the model play no part in it. *)
Theorem load_and_create_ee_model_ignores_validation
    (pl jl : string -> result (option py_object))
    (te : ee_classifier -> table -> option exn)
    (path : string) (bands : list string) (training_data : table)
    (out : list message) (o : py_object) :
  deserialize pl jl path = Some o ->
  info_error o = None ->
  fst (load_and_create_ee_model pl jl te path bands training_data out) =
    if passes_maxDepth o then Raise (unexpected_keyword "maxDepth")
    else
      Ok (Some o,
          match te (forest_for o) training_data with
          | None =>
              Some (Trained (forest_for o) training_data "FaseNumerik" bands)
          | Some _ => None
          end).
Proof.
  intros Hd He. rewrite load_and_create_ee_model_run.
  rewrite (load_model_deserialize pl jl path bands out o Hd).
  match goal with
  | |- context [validate_model_compatibility ?l ?ou] =>
      rewrite (validate_run l o ou eq_refl), He
  end.
  match goal with
  | |- context [create_ee_model ?t ?l ?d ?ou] =>
      rewrite (create_ee_model_run t l d ou o eq_refl), He
  end.
  destruct (passes_maxDepth o); [reflexivity |].
  now destruct (te (forest_for o) training_data).
Qed.

(** A forest trained on three features, read by joblib. *)
Lemma load_and_create_ee_model_ignores_validation_witness :
  compatible forest_three_features BANDS_SELECTED = false /\
  fst (load_and_create_ee_model (fun _ => Raise no_file)
         (fun _ => Ok (Some forest_three_features)) never_fails MODEL_PATH
         BANDS_SELECTED three_rows []) =
    Ok (Some forest_three_features,
        Some (Trained (smileRandomForest (PyInt 50)) three_rows
                "FaseNumerik" BANDS_SELECTED)).
Proof.
  split; [reflexivity |].
  apply (load_and_create_ee_model_ignores_validation
           (fun _ => Raise no_file) (fun _ => Ok (Some forest_three_features))
           never_fails MODEL_PATH BANDS_SELECTED three_rows []
           forest_three_features); reflexivity.
Defined.

(** ** Section 6 of rice_classification_optimized.py as a whole *)

(** X6. Section 6 of the script ends in one of four ways.  It ends with an
    exception of the loader when the information of the loaded object
    cannot be read, or when the object is a compatible forest with a truthy
    [max_depth]: then no fallback is trained.  With a model that is
    deserialized, judged compatible and re-created without error, [model]
    is the classifier instantiated for it, trained on the whole feature
    table, and [loaded_successfully] is [True].  Otherwise [model] is the
    fallback forest and [loaded_successfully] is [False], or the fallback
    training raises.  So [model] is never [None] when the section ends, and
    the script's own [raise Exception] cannot be reached. *)
Theorem muat_model_outcome
    (pl jl : string -> result (option py_object))
    (te : ee_classifier -> table -> option exn)
    (rv : Z -> nat -> gmap string eeval -> Q)
    (ta : table -> ee_classifier -> result Q)
    (data_latih : table) (out : list message) :
  script_outcome (fst (muat_model pl jl te rv ta data_latih out)) =
    match loader_error pl jl with
    | Some e => Raise e
    | None =>
        match usable_model pl jl te data_latih with
        | Some o =>
            Ok (Some (Trained (forest_for o) data_latih "FaseNumerik"
                        BANDS_SELECTED), true)
        | None =>
            match te (smileRandomForest (PyInt 200))
                     (fallback_train_set rv data_latih) with
            | None =>
                Ok (Some (fallback_forest rv data_latih BANDS_SELECTED 200),
                    false)
            | Some e => Raise e
            end
        end
    end.
Proof.
  unfold loader_error, usable_model.
  destruct (deserialize pl jl MODEL_PATH) as [o |] eqn:Hd.
  - rewrite (muat_model_loaded pl jl te rv ta data_latih out o Hd).
    cbv zeta.
    destruct (info_error o) as [e |]; [reflexivity |].
    destruct (compatible o BANDS_SELECTED); cbn [andb negb].
    + destruct (passes_maxDepth o); [reflexivity |]. cbn [negb].
      destruct (te (forest_for o) data_latih); [| reflexivity].
      apply fallback_outcome.
    + apply fallback_outcome.
  - now apply muat_model_no_object.
Qed.

(** X7. With a usable pre-trained model, section 6 never touches the
    fallback: the random split and the accuracy evaluation play no part in
    what it returns or prints. *)
Theorem muat_model_usable_skips_fallback
    (pl jl : string -> result (option py_object))
    (te : ee_classifier -> table -> option exn)
    (rv rv' : Z -> nat -> gmap string eeval -> Q)
    (ta ta' : table -> ee_classifier -> result Q)
    (data_latih : table) (out : list message) (o : py_object) :
  usable_model pl jl te data_latih = Some o ->
  muat_model pl jl te rv ta data_latih out =
  muat_model pl jl te rv' ta' data_latih out.
Proof.
  unfold usable_model. intros Hu.
  destruct (deserialize pl jl MODEL_PATH) as [o' |] eqn:Hd; [| discriminate].
  rewrite !(muat_model_loaded pl jl te _ _ data_latih out o' Hd). cbv zeta.
  destruct (info_error o'); [discriminate |].
  destruct (compatible o' BANDS_SELECTED); [| discriminate].
  destruct (passes_maxDepth o'); [discriminate |].
  destruct (te (forest_for o') data_latih); [discriminate | reflexivity].
Qed.

(** The model file holds the forest grown without a depth limit. *)
Lemma muat_model_usable_skips_fallback_witness :
  usable_model (fun _ => Ok (Some forest_unlimited)) unreadable never_fails
    three_rows = Some forest_unlimited /\
  muat_model (fun _ => Ok (Some forest_unlimited)) unreadable
    never_fails half_steps perfect_accuracy three_rows [] =
  muat_model (fun _ => Ok (Some forest_unlimited)) unreadable
    never_fails (fun _ _ _ => 1%Q) no_accuracy three_rows [].
Proof.
  split; [reflexivity |].
  apply (muat_model_usable_skips_fallback _ _ _ _ _ _ _ _ _
           forest_unlimited).
  reflexivity.
Defined.

(** * The stand-alone script *)

Lemma muat_model_yang_sudah_ada_run pl te rv ta data out :
  muat_model_yang_sudah_ada pl te rv ta data out =
    let fallback := fallback_forest rv data BANDS_SELECTED 200 in
    let handler e out' :=
      match te (smileRandomForest (PyInt 200))
               (fallback_train_set rv data) with
      | Some e' =>
          (Raise e', out' ++ [handler_message e; MsgTrainingNewFallback])
      | None =>
          match ta (fallback_test_set rv data) fallback with
          | Ok acc =>
              (Ok fallback,
               out' ++ [handler_message e; MsgTrainingNewFallback;
                        MsgFallbackTrained; MsgAccuracy acc])
          | Raise e' =>
              (Raise e',
               out' ++ [handler_message e; MsgTrainingNewFallback;
                        MsgFallbackTrained])
          end
      end in
    match pl MODEL_PATH with
    | Raise e => handler e out
    | Ok v =>
        match v ≫= n_estimators with
        | None =>
            handler name_error
              (out ++ [MsgLoadedFrom MODEL_PATH; MsgNotStandardForest])
        | Some n =>
            match te (smileRandomForest n) data with
            | None =>
                (Ok (Trained (smileRandomForest n) data "FaseNumerik"
                       BANDS_SELECTED),
                 out ++ [MsgLoadedFrom MODEL_PATH; MsgTreeCount n;
                         MsgSameParameters])
            | Some e =>
                handler e (out ++ [MsgLoadedFrom MODEL_PATH; MsgTreeCount n])
            end
        end
    end.
Proof.
  cbv zeta.
  assert (Hh : forall e out',
    (if String.eqb (exn_class e) "FileNotFoundError"
     then
       bind (print (MsgFileNotFound MODEL_PATH))
         (fun _ => bind (print MsgTrainingNewFallback)
            (fun _ => bind
               (call (Ok (smileRandomForest (PyInt 200))))
               (fun c => bind
                  (call (train te c (fallback_train_set rv data)
                           "FaseNumerik" BANDS_SELECTED))
                  (fun model => bind (print MsgFallbackTrained)
                     (fun _ => bind
                        (call (ta (fallback_test_set rv data) model))
                        (fun acc => bind (print (MsgAccuracy acc))
                           (fun _ => ret model)))))))
     else
       bind (print (MsgLoadError e))
         (fun _ => bind (print MsgTrainingNewFallback)
            (fun _ => bind
               (call (Ok (smileRandomForest (PyInt 200))))
               (fun c => bind
                  (call (train te c (fallback_train_set rv data)
                           "FaseNumerik" BANDS_SELECTED))
                  (fun model => bind (print MsgFallbackTrained)
                     (fun _ => bind
                        (call (ta (fallback_test_set rv data) model))
                        (fun acc => bind (print (MsgAccuracy acc))
                           (fun _ => ret model)))))))) out' =
    match te (smileRandomForest (PyInt 200))
             (fallback_train_set rv data) with
    | Some e' =>
        (Raise e', out' ++ [handler_message e; MsgTrainingNewFallback])
    | None =>
        match ta (fallback_test_set rv data)
                 (fallback_forest rv data BANDS_SELECTED 200) with
        | Ok acc =>
            (Ok (fallback_forest rv data BANDS_SELECTED 200),
             out' ++ [handler_message e; MsgTrainingNewFallback;
                      MsgFallbackTrained; MsgAccuracy acc])
        | Raise e' =>
            (Raise e',
             out' ++ [handler_message e; MsgTrainingNewFallback;
                      MsgFallbackTrained])
        end
    end).
  { intros e out'. unfold handler_message, fallback_forest, train.
    destruct (String.eqb (exn_class e) "FileNotFoundError"); py_simpl;
      destruct (te _ _); rewrite <- ?app_assoc; try reflexivity;
      destruct (ta _ _); rewrite <- ?app_assoc; reflexivity. }
  unfold muat_model_yang_sudah_ada.
  change (Classifier_smileRandomForest [PyInt 200] [])
    with (Ok (smileRandomForest (PyInt 200))).
  unfold try_except at 1.
  unfold bind at 1, call at 1.
  destruct (pl MODEL_PATH) as [v | e]; [| apply Hh].
  unfold bind at 1, print at 1.
  destruct (v ≫= n_estimators) as [n |].
  - rewrite smileRandomForest_positional.
    unfold bind at 1, print at 1. unfold bind at 1, call at 1.
    unfold bind at 1, call at 1, train at 1.
    destruct (te (smileRandomForest n) data) as [e |].
    + rewrite Hh. now rewrite <- !app_assoc.
    + py_simpl. now rewrite <- !app_assoc.
  - unfold bind at 1, print at 1. unfold bind at 1, call at 1, raise at 1.
    rewrite Hh. now rewrite <- !app_assoc.
Qed.

(** X8. The stand-alone script ends with the forest re-created from the tree
    count of the loaded object when the file is read by pickle, the object
    has [n_estimators] and the training does not raise.  In every other
    case (no file, an object without [n_estimators], a training error) the
    handler trains the fallback forest of 200 trees on the training part of
    the split; an error of that training or of the accuracy evaluation is
    not caught and ends the script. *)
Theorem muat_model_yang_sudah_ada_outcome
    (pl : string -> result (option py_object))
    (te : ee_classifier -> table -> option exn)
    (rv : Z -> nat -> gmap string eeval -> Q)
    (ta : table -> ee_classifier -> result Q)
    (data_latih : table) (out : list message) :
  fst (muat_model_yang_sudah_ada pl te rv ta data_latih out) =
    match recreated_forest pl te data_latih with
    | Some m => Ok m
    | None =>
        match te (smileRandomForest (PyInt 200))
                 (fallback_train_set rv data_latih) with
        | Some e => Raise e
        | None =>
            match ta (fallback_test_set rv data_latih)
                     (fallback_forest rv data_latih BANDS_SELECTED 200) with
            | Ok _ => Ok (fallback_forest rv data_latih BANDS_SELECTED 200)
            | Raise e => Raise e
            end
        end
    end.
Proof.
  rewrite muat_model_yang_sudah_ada_run. cbv zeta. unfold recreated_forest.
  destruct (pl MODEL_PATH) as [v | e].
  - destruct (v ≫= n_estimators) as [n |].
    + destruct (te (smileRandomForest n) data_latih); [| reflexivity].
      destruct (te _ _); [reflexivity |]. now destruct (ta _ _).
    + destruct (te _ _); [reflexivity |]. now destruct (ta _ _).
  - destruct (te _ _); [reflexivity |]. now destruct (ta _ _).
Qed.

(** X9. For a loaded value without [n_estimators] ([None] included) the
    [else] branch of the stand-alone script fails with [NameError] before
    it trains anything:
    the handler reports that error and trains the fallback, and the
    training call is consulted for the fallback forest on the training part
    of the split only. *)
Theorem muat_model_yang_sudah_ada_name_error
    (pl : string -> result (option py_object))
    (te te' : ee_classifier -> table -> option exn)
    (rv : Z -> nat -> gmap string eeval -> Q)
    (ta : table -> ee_classifier -> result Q)
    (data_latih : table) (out : list message) (v : option py_object) :
  pl MODEL_PATH = Ok v ->
  v ≫= n_estimators = None ->
  te' (smileRandomForest (PyInt 200)) (fallback_train_set rv data_latih)
    = te (smileRandomForest (PyInt 200))
         (fallback_train_set rv data_latih) ->
  muat_model_yang_sudah_ada pl te' rv ta data_latih out =
    muat_model_yang_sudah_ada pl te rv ta data_latih out /\
  exists rest,
    snd (muat_model_yang_sudah_ada pl te rv ta data_latih out) =
      out ++ [MsgLoadedFrom MODEL_PATH; MsgNotStandardForest;
              MsgLoadError name_error; MsgTrainingNewFallback] ++ rest.
Proof.
  intros Hp Hn Hte. rewrite !muat_model_yang_sudah_ada_run. cbv zeta.
  rewrite Hp, Hn, Hte. split; [reflexivity |].
  change (handler_message name_error) with (MsgLoadError name_error).
  destruct (te _ _); [| destruct (ta _ _)]; cbn [snd];
    rewrite <- !app_assoc; cbn [app]; eexists; reflexivity.
Qed.

Lemma muat_model_yang_sudah_ada_name_error_witness :
  muat_model_yang_sudah_ada (fun _ => Ok (Some plain_dict))
    (fun c _ => match c with
                | smileRandomForest (PyInt 200) => None
                | _ => Some bad_pickle
                end)
    half_steps perfect_accuracy three_rows [] =
  muat_model_yang_sudah_ada (fun _ => Ok (Some plain_dict)) never_fails
    half_steps perfect_accuracy three_rows [].
Proof.
  apply (muat_model_yang_sudah_ada_name_error (fun _ => Ok (Some plain_dict))
           never_fails _ half_steps perfect_accuracy three_rows []
           (Some plain_dict)); reflexivity.
Defined.

(** X10. The stand-alone script reads nothing but [n_estimators] off the
    loaded value: two model files whose values have the same
    [n_estimators] (whatever their type, depth or features), or both lack
    it, give the same classifier and the same output. *)
Theorem muat_model_yang_sudah_ada_reads_tree_count_only
    (pl1 pl2 : string -> result (option py_object))
    (te : ee_classifier -> table -> option exn)
    (rv : Z -> nat -> gmap string eeval -> Q)
    (ta : table -> ee_classifier -> result Q)
    (data_latih : table) (out : list message) (v1 v2 : option py_object) :
  pl1 MODEL_PATH = Ok v1 ->
  pl2 MODEL_PATH = Ok v2 ->
  v1 ≫= n_estimators = v2 ≫= n_estimators ->
  muat_model_yang_sudah_ada pl1 te rv ta data_latih out =
  muat_model_yang_sudah_ada pl2 te rv ta data_latih out.
Proof.
  intros H1 H2 Hn. rewrite !muat_model_yang_sudah_ada_run. cbv zeta.
  now rewrite H1, H2, Hn.
Qed.

Lemma muat_model_yang_sudah_ada_reads_tree_count_only_witness :
  max_depth forest_seven_bands <> max_depth forest_three_features /\
  muat_model_yang_sudah_ada (fun _ => Ok (Some forest_seven_bands))
    never_fails half_steps perfect_accuracy three_rows [] =
  muat_model_yang_sudah_ada (fun _ => Ok (Some forest_three_features))
    never_fails half_steps perfect_accuracy three_rows [].
Proof.
  split; [discriminate |].
  apply (muat_model_yang_sudah_ada_reads_tree_count_only _ _ _ _ _ _ _
           (Some forest_seven_bands) (Some forest_three_features));
    reflexivity.
Defined.

(** * Further properties of the labels and of the classified collection *)

(** X11. [konversi_label_numerik] changes nothing but ['FaseNumerik']: the
    geometry and every other property, ['Fase'] among them, are kept.
    Converting an already converted feature gives the same feature again. *)
Theorem konversi_label_numerik_idempotent
    (toLowerCase trim : string -> string) (feature feature' : Feature) :
  konversi_label_numerik toLowerCase trim feature = Some feature' ->
  geometry feature' = geometry feature /\
  (forall key, key <> "FaseNumerik" ->
     properties feature' !! key = properties feature !! key) /\
  konversi_label_numerik toLowerCase trim feature' = Some feature'.
Proof.
  unfold konversi_label_numerik, get_String. intros Hk.
  destruct (properties feature !! "Fase") as [[| | s] |] eqn:Hf;
    try discriminate.
  cbn in Hk. injection Hk as <-. cbn.
  split; [reflexivity |]. split.
  - intros key Hne. now rewrite lookup_insert_ne.
  - rewrite lookup_insert_ne by discriminate. rewrite Hf. cbn.
    unfold Feature_set. cbn. now rewrite insert_insert_eq.
Qed.

Lemma konversi_label_numerik_idempotent_witness :
  exists feature',
    konversi_label_numerik toLowerCase_bytes trim_bytes titik_berlabel
      = Some feature' /\
    properties feature' !! "FaseNumerik" = Some (EEInt 5) /\
    properties feature' !! "id" = Some (EEInt 17) /\
    konversi_label_numerik toLowerCase_bytes trim_bytes feature'
      = Some feature'.
Proof.
  eassert (Hrun : konversi_label_numerik toLowerCase_bytes trim_bytes
                    titik_berlabel = Some _) by reflexivity.
  destruct (konversi_label_numerik_idempotent _ _ _ _ Hrun)
    as (_ & Hframe & Hagain).
  eexists. split; [exact Hrun |].
  split; [reflexivity |]. split; [| exact Hagain].
  rewrite Hframe by discriminate. reflexivity.
Defined.

(** X12. The numeric code is always between 0 and 5, and it inverts the
    list of phase names: the code of a text is [k], for [k] from 1 to 5,
    exactly when the text is the [k]-th phase name, and it is 0 exactly when
    the text is none of them. *)
Theorem fase_numerik_inverts_phase_names (t : string) :
  0 <= fase_numerik t <= 5 /\
  (forall k, (1 <= k <= 5)%nat ->
     fase_numerik t = Z.of_nat k <-> phase_names !! (k - 1)%nat = Some t) /\
  (fase_numerik t = 0 <-> t ∉ phase_names).
Proof.
  unfold fase_numerik, phase_names.
  repeat match goal with
         | |- context [String.eqb t ?x] =>
             destruct (String.eqb_spec t x) as [-> | ?]
         end.
  6: { split; [lia |]. split.
       - intros k Hk. split; [lia |].
         destruct k as [| [| [| [| [| [| k]]]]]]; cbn; try lia;
           intros [= <-]; congruence.
       - split; [| reflexivity]. intros _ Hin.
         repeat (apply elem_of_cons in Hin as [-> | Hin]; [congruence |]).
         now apply not_elem_of_nil in Hin. }
  all: split; [lia |]; split;
    [ intros k Hk;
      destruct k as [| [| [| [| [| [| k]]]]]]; cbn; try lia;
      (split; [first [reflexivity | discriminate] |]);
      first [ reflexivity | intros [= H]; discriminate H ]
    | split; [discriminate |]; intros Hnot; exfalso; apply Hnot;
      repeat first [apply list_elem_of_here | apply list_elem_of_further] ].
Qed.

(** ** Date filters on the classified collection *)

Section TimeFilter.

Variable classify : Image -> ee_classifier -> Image.
Variable Date_format : eeval -> string -> option string.

(** A classified image carries the timestamp of its input. *)
Lemma klasifikasi_image_time_start model image o :
  klasifikasi_image classify Date_format model image = Some o ->
  image_properties o !! "system:time_start" =
  image_properties image !! "system:time_start".
Proof.
  unfold klasifikasi_image. intros Hk.
  destruct (Image_rename ["classification"] (classify image model))
    as [classified |]; [| discriminate].
  cbn [mbind option_bind] in Hk.
  destruct (image_properties image !! "system:time_start") as [ts |];
    [| discriminate].
  cbn [mbind option_bind] in Hk.
  destruct (Date_format ts "YYYY-MM-dd") as [d |]; [| discriminate].
  cbn [mbind option_bind] in Hk. injection Hk as <-. cbn.
  rewrite lookup_insert_ne by discriminate. now rewrite lookup_insert_eq.
Qed.

(** X14. Because every classified image carries the timestamp of its input,
    a date filter commutes with the classification: filtering the
    classified collection by time gives the classification of the filtered
    input collection, for every test on ['system:time_start']. *)
Theorem klasifikasi_collection_commutes_with_time_filter
    (keep : eeval -> bool) (model : ee_classifier)
    (collection hasil : list Image) :
  klasifikasi_collection classify Date_format model collection = Some hasil ->
  klasifikasi_collection classify Date_format model
    (filter_by_time keep collection) = Some (filter_by_time keep hasil).
Proof.
  unfold klasifikasi_collection.
  revert hasil. induction collection as [| image collection IH];
    intros hasil Hmap.
  - cbn in Hmap. injection Hmap as <-. reflexivity.
  - cbn in Hmap.
    destruct (klasifikasi_image classify Date_format model image)
      as [o |] eqn:Ho; [| discriminate].
    cbn in Hmap.
    destruct (mapM (klasifikasi_image classify Date_format model) collection)
      as [rest |] eqn:Hrest; [| discriminate].
    cbn in Hmap. injection Hmap as <-.
    specialize (IH rest eq_refl).
    unfold filter_by_time in *. cbn [List.filter].
    rewrite (klasifikasi_image_time_start model image o Ho).
    destruct (image_properties image !! "system:time_start") as [ts |];
      [destruct (keep ts) |]; try exact IH.
    cbn. rewrite Ho. cbn. rewrite IH. reflexivity.
Qed.

End TimeFilter.

Lemma klasifikasi_collection_commutes_with_time_filter_witness :
  exists o,
    klasifikasi_collection classify_constant format_two_dates
      (smileRandomForest (PyInt 200))
      (filter_by_time before_march [citra_mid_year; citra_new_year])
      = Some [o] /\
    image_properties o !! "tanggal" = Some (EEStr "2024-01-01").
Proof.
  eassert (Hrun : klasifikasi_collection classify_constant format_two_dates
                    (smileRandomForest (PyInt 200))
                    [citra_mid_year; citra_new_year] = Some [_; _])
    by reflexivity.
  pose proof (klasifikasi_collection_commutes_with_time_filter
                classify_constant format_two_dates before_march _ _ _ Hrun)
    as Hfiltered.
  eexists. split; [exact Hfiltered | reflexivity].
Defined.

(** * Properties of the interactive layer *)

Ltac ui_unfold :=
  unfold ui_bind, ui_ret, ui_call, ui_raise, ui_try, widget_print, ui_print,
    clear_output, addLayer, read_global, format_float, list_getitem,
    picker_strftime in *.

(** ** The names of the temporal layers *)

Lemma string_length_app (a b : string) :
  String.length (a ++ b)%string = (String.length a + String.length b)%nat.
Proof.
  induction a as [| c a IH]; [reflexivity |].
  rewrite app_cons. cbn [String.length Nat.add]. now rewrite IH.
Qed.

(** Every layer name built by [tampilkan_klasifikasi] is one that
    [clear_layers] is written to remove. *)
Lemma layer_name_of_temporal (start_date end_date : string) :
  is_temporal_layer (layer_name_of start_date end_date) = true.
Proof.
  unfold is_temporal_layer. apply andb_true_iff. split.
  - apply str_in_spec.
    exists EmptyString, (" " ++ start_date ++ " s.d. " ++ end_date)%string.
    reflexivity.
  - apply negb_true_iff, String.eqb_neq. unfold layer_name_of. intros Heq.
    assert (Hrest : (start_date ++ " s.d. " ++ end_date)%string = "Mean").
    { change ("Klasifikasi " ++ (start_date ++ " s.d. " ++ end_date) =
              "Klasifikasi " ++ "Mean")%string in Heq.
      repeat (rewrite !app_cons in Heq; injection Heq as Heq).
      exact Heq. }
    apply (f_equal String.length) in Hrest.
    rewrite !string_length_app in Hrest. cbn in Hrest. lia.
Qed.

Section InteractiveProperties.

Variable strftime : datetime -> string.
Variable Map_remove_layer :
  string -> list (string * map_layer) -> result (list (string * map_layer)).
Variable filterDate : list Image -> string -> string -> list Image.
Variable size_getInfo : list Image -> result Z.
Variable mean_getInfo : list Image -> result (gmap string (option Q)).

(** [tampilkan_klasifikasi] with a cleared picker: [strftime] is called on
    [None] before the [try]. *)
Lemma tampilkan_klasifikasi_cleared g tanggal_mulai tanggal_akhir st :
  tanggal_mulai = None \/ tanggal_akhir = None ->
  tampilkan_klasifikasi strftime filterDate size_getInfo mean_getInfo
    g tanggal_mulai tanggal_akhir st =
    (Raise (attribute_error "NoneType" "strftime"),
     with_widget st (Map_layers st) []).
Proof.
  unfold tampilkan_klasifikasi, with_widget. ui_unfold.
  destruct tanggal_mulai, tanggal_akhir; intros [[=] | [=]]; reflexivity.
Qed.

(** [tampilkan_klasifikasi] with two dates, in closed form. *)
Lemma tampilkan_klasifikasi_run g mulai akhir st :
  tampilkan_klasifikasi strftime filterDate size_getInfo mean_getInfo
    g (Some mulai) (Some akhir) st =
    let start_date := strftime mulai in
    let end_date := strftime akhir in
    let filtered := filterDate (hasil_klasifikasi g) start_date end_date in
    (Ok tt,
     match size_getInfo filtered with
     | Raise e => with_widget st (Map_layers st) [UiError e]
     | Ok n =>
         if 0 <? n then
           match vis_params g with
           | None =>
               with_widget st (Map_layers st)
                 [UiError
                    (Exn "NameError" "name 'vis_params' is not defined")]
           | Some v =>
               with_widget st
                 (<[layer_name_of start_date end_date :=
                      MeanLayer filtered v]> (Map_layers st))
                 ([UiLayerAdded (layer_name_of start_date end_date);
                   UiImageCount n]
                    ++ mean_class_lines (mean_getInfo filtered))
           end
         else with_widget st (Map_layers st) [UiNoImages start_date end_date]
     end).
Proof.
  cbv zeta. unfold tampilkan_klasifikasi, with_widget, mean_class_lines.
  ui_unfold. cbn.
  destruct (size_getInfo _) as [n | e]; [| reflexivity].
  destruct (0 <? n); [| reflexivity].
  destruct (vis_params g) as [v |]; [| reflexivity]. cbn.
  destruct (mean_getInfo _) as [mean_class | e]; [| reflexivity].
  destruct (mean_class !! "classification") as [[q |] |]; cbn;
    try reflexivity.
  now destruct (Qeq_bool q 0).
Qed.


(** The layers after [tampilkan_klasifikasi]: as before, or with the layer
    of the period. *)
Lemma tampilkan_klasifikasi_layers g tanggal_mulai tanggal_akhir st :
  let st' := snd (tampilkan_klasifikasi strftime filterDate size_getInfo
                    mean_getInfo g tanggal_mulai tanggal_akhir st) in
  stdout st' = stdout st /\ started_tasks st' = started_tasks st /\
  (Map_layers st' = Map_layers st \/
   exists layer start_date end_date,
     Map_layers st' =
       <[layer_name_of start_date end_date := layer]> (Map_layers st)).
Proof.
  cbv zeta.
  destruct tanggal_mulai as [mulai |], tanggal_akhir as [akhir |];
    [| rewrite tampilkan_klasifikasi_cleared by tauto; cbn; auto ..].
  rewrite tampilkan_klasifikasi_run. cbv zeta. cbn [snd].
  destruct (size_getInfo _) as [n | e]; [| cbn; auto].
  destruct (0 <? n); [| cbn; auto].
  destruct (vis_params g) as [v |]; cbn; [| auto].
  do 2 (split; [reflexivity |]). right. eauto.
Qed.

(** A click on 'Clear Layers': [Map.layers.keys()] raises, and the layers
    stay as they were. *)
Lemma klik_clear_run st :
  klik_clear Map_remove_layer st =
    (Raise (attribute_error "tuple" "keys"),
     with_widget st (Map_layers st) []).
Proof.
  unfold klik_clear, clear_layers, tuple_keys, with_widget.
  cbn [layers output_widget fmap list_fmap].
  now rewrite list_to_map_to_list.
Qed.

Lemma handle_other_layers g ev st name :
  is_temporal_layer name = false ->
  Map_layers (snd (handle strftime Map_remove_layer filterDate size_getInfo
                     mean_getInfo g ev st)) !! name = Map_layers st !! name.
Proof.
  intros Hname. destruct ev as [mulai akhir |]; cbn [handle].
  - destruct (tampilkan_klasifikasi_layers g mulai akhir st)
      as (_ & _ & [-> | (layer & s & e & ->)]); [reflexivity |].
    apply lookup_insert_ne. intros <-.
    rewrite layer_name_of_temporal in Hname. discriminate.
  - now rewrite klik_clear_run.
Qed.

Lemma run_events_other_layers g events st name :
  is_temporal_layer name = false ->
  Map_layers (run_events strftime Map_remove_layer filterDate size_getInfo
                mean_getInfo
                g events st) !! name = Map_layers st !! name.
Proof.
  intros Hname. unfold run_events. revert st.
  induction events as [| ev events IH]; intros st; [reflexivity |].
  cbn [foldl]. rewrite IH. now apply handle_other_layers.
Qed.

(** X17. Whatever buttons are clicked after the map is set up, the layers
    of the setup stay: 'Titik Pelatihan' is on the map, 'Klasifikasi Mean'
    is on the map when the collection is not empty, and every other layer
    whose name is not that of a temporal layer is the one of the base
    map. *)
Theorem setup_layers_survive_clicks
    (basemap : gmap string map_layer) (hasil : list Image)
    (collection_size : Z) (events : list ui_event) :
  let st0 := fst (siapkan_peta basemap hasil collection_size) in
  let g := snd (siapkan_peta basemap hasil collection_size) in
  let st := run_events strftime Map_remove_layer filterDate size_getInfo
                mean_getInfo
              g events st0 in
  Map_layers st !! "Titik Pelatihan" = Some (FeatureLayer "red") /\
  Map_layers st !! "Klasifikasi Mean" =
    (if 0 <? collection_size then Some (MeanLayer hasil vis_fase)
     else basemap !! "Klasifikasi Mean") /\
  (forall name, is_temporal_layer name = false ->
     name <> "Titik Pelatihan" -> name <> "Klasifikasi Mean" ->
     Map_layers st !! name = basemap !! name).
Proof.
  cbv zeta. repeat split.
  - rewrite run_events_other_layers by reflexivity.
    unfold siapkan_peta. destruct (0 <? collection_size); cbn.
    + rewrite lookup_insert_ne by discriminate. apply lookup_insert_eq.
    + apply lookup_insert_eq.
  - rewrite run_events_other_layers by reflexivity.
    unfold siapkan_peta. destruct (0 <? collection_size); cbn.
    + apply lookup_insert_eq.
    + now rewrite lookup_insert_ne by discriminate.
  - intros name Hname Hne1 Hne2.
    rewrite run_events_other_layers by assumption.
    unfold siapkan_peta. destruct (0 <? collection_size); cbn.
    + now rewrite !lookup_insert_ne by congruence.
    + now rewrite lookup_insert_ne by congruence.
Qed.


End InteractiveProperties.


(** * Properties of the analysis and export helpers *)

(** ** Computations that only print *)

Lemma with_stdout_nil st : with_stdout st [] = st.
Proof. destruct st. unfold with_stdout. cbn. now rewrite app_nil_r. Qed.

Lemma with_stdout_app st l1 l2 :
  with_stdout (with_stdout st l1) l2 = with_stdout st (l1 ++ l2).
Proof. unfold with_stdout. cbn. now rewrite app_assoc. Qed.

Lemma prints_only_ret {A} (a : A) : prints_only (ui_ret a).
Proof. intros st. exists (Ok a), []. now rewrite with_stdout_nil. Qed.

Lemma prints_only_raise {A} (e : exn) : prints_only (@ui_raise A e).
Proof. intros st. exists (Raise e), []. now rewrite with_stdout_nil. Qed.

Lemma prints_only_call {A} (r : result A) : prints_only (ui_call r).
Proof. intros st. exists r, []. now rewrite with_stdout_nil. Qed.

Lemma prints_only_print m : prints_only (ui_print m).
Proof. intros st. exists (Ok tt), [m]. reflexivity. Qed.

Lemma prints_only_bind {A B} (c : Ui A) (k : A -> Ui B) :
  prints_only c -> (forall a, prints_only (k a)) -> prints_only (ui_bind c k).
Proof.
  intros Hc Hk st. unfold ui_bind.
  destruct (Hc st) as (r & l1 & ->).
  destruct r as [a | e].
  - destruct (Hk a (with_stdout st l1)) as (r' & l2 & ->).
    exists r', (l1 ++ l2). now rewrite with_stdout_app.
  - now exists (Raise e), l1.
Qed.

Lemma prints_only_try {A} (c : Ui A) (h : exn -> Ui A) :
  prints_only c -> (forall e, prints_only (h e)) -> prints_only (ui_try c h).
Proof.
  intros Hc Hh st. unfold ui_try.
  destruct (Hc st) as (r & l1 & ->).
  destruct r as [a | e].
  - now exists (Ok a), l1.
  - destruct (Hh e (with_stdout st l1)) as (r' & l2 & ->).
    exists r', (l1 ++ l2). now rewrite with_stdout_app.
Qed.

Lemma prints_only_format_float v : prints_only (format_float v).
Proof.
  destruct v; [apply prints_only_ret | apply prints_only_raise].
Qed.

Lemma prints_only_print_stat stats key line :
  prints_only (print_stat stats key line).
Proof.
  unfold print_stat. destruct (stats !! key); [| apply prints_only_ret].
  apply prints_only_bind; [apply prints_only_format_float |].
  intros q. apply prints_only_print.
Qed.

(** ** The loop over the histogram *)

Lemma class_name_of_in_range (i : nat) :
  (i + 1 <? length LABEL)%nat = true ->
  LABEL !! (i + 1)%nat = Some (class_name_of i).
Proof.
  intros Hlt. apply Nat.ltb_lt in Hlt. unfold class_name_of.
  destruct (LABEL !! (i + 1)%nat) as [label |] eqn:Hl; [reflexivity |].
  apply lookup_ge_None in Hl. lia.
Qed.

Lemma class_name_of_out_of_range (i : nat) :
  (i + 1 <? length LABEL)%nat = false ->
  class_name_of i = ("Kelas " ++ pretty (i + 1)%nat)%string.
Proof.
  intros Hge. apply Nat.ltb_ge in Hge. unfold class_name_of.
  now rewrite (proj2 (lookup_ge_None LABEL (i + 1)) Hge).
Qed.

Lemma histogram_loop_closed (i : nat) (items : list Q) (count : Q)
    (st : UiState) :
  histogram_loop i items count st =
    (Ok (default count (last items)),
     with_stdout st (histogram_lines i items)).
Proof.
  revert i count st. induction items as [| c rest IH]; intros i count st.
  - cbn. now rewrite with_stdout_nil.
  - cbn [histogram_loop histogram_lines]. unfold ui_bind at 1.
    assert (Hstep :
      (if negb (Qle_bool c 0)
       then ui_bind
              (if (i + 1 <? length LABEL)%nat
               then list_getitem LABEL (i + 1)
               else ui_ret ("Kelas " ++ pretty (i + 1)%nat)%string)
              (fun class_name => ui_print (UiClassCount class_name c))
       else ui_ret tt) st =
      (Ok tt,
       with_stdout st
         (if Qle_bool c 0 then []
          else [UiClassCount (class_name_of i) c]))).
    { destruct (Qle_bool c 0); cbn [negb].
      + unfold ui_ret. now rewrite with_stdout_nil.
      + unfold ui_bind.
        destruct (i + 1 <? length LABEL)%nat eqn:Hlt.
        * unfold list_getitem.
          rewrite (class_name_of_in_range i Hlt). reflexivity.
        * rewrite (class_name_of_out_of_range i Hlt). reflexivity. }
    rewrite Hstep. rewrite IH, with_stdout_app. f_equal. f_equal.
    destruct rest as [| c' rest']; [reflexivity |].
    rewrite last_cons_cons.
    destruct (last (c' :: rest')) eqn:Hlast; [reflexivity |].
    apply last_None in Hlast. discriminate.
Qed.

(** X20. The loop over the histogram never raises, whatever the number of
    buckets: a bucket with a positive count is printed under the class name
    of its position, taken from [LABEL] for the first five buckets and
    'Kelas n' beyond them, and the other buckets print nothing.  The loop
    leaves [count] holding the last bucket. *)
Theorem histogram_loop_run (i : nat) (items : list Q) (count : Q)
    (st : UiState) :
  histogram_loop i items count st =
    (Ok (default count (last items)),
     with_stdout st (histogram_lines i items)) /\
  (forall j, (j < 5)%nat -> LABEL !! (j + 1)%nat = Some (class_name_of j)) /\
  (forall j, (5 <= j)%nat ->
     class_name_of j = ("Kelas " ++ pretty (j + 1)%nat)%string).
Proof.
  split; [apply histogram_loop_closed | split].
  - intros j Hj. apply class_name_of_in_range. apply Nat.ltb_lt.
    cbn. lia.
  - intros j Hj. apply class_name_of_out_of_range. apply Nat.ltb_ge.
    cbn. lia.
Qed.

(** ** analisis_komprehensif *)

Lemma print_stat_run stats key line st :
  print_stat stats key line st =
    match stats !! key with
    | Some (Some q) => (Ok tt, with_stdout st [line q])
    | Some None => (Raise type_error_format, st)
    | None => (Ok tt, st)
    end.
Proof.
  unfold print_stat. destruct (stats !! key) as [[q |] |]; reflexivity.
Qed.

Section HelperProperties.

Variable filterDate : list Image -> string -> string -> list Image.
Variable size_getInfo : list Image -> result Z.
Variable stats_getInfo : list Image -> result (gmap string (option Q)).
Variable histogram_getInfo :
  list Image -> result (gmap string (option (gmap string (list Q)))).
Variable start_error : export_config -> option exn.
Variable task_status : export_config -> result string.

(** The analysis only prints, and its handler turns every exception into
    the value [None]. *)
Lemma analisis_komprehensif_prints g start_date end_date st :
  exists r lines,
    analisis_komprehensif filterDate size_getInfo stats_getInfo
      histogram_getInfo g start_date end_date st
      = (Ok r, with_stdout st lines).
Proof.
  unfold analisis_komprehensif.
  match goal with
  | |- context [ui_try ?body ?handler] =>
      assert (Hbody : prints_only body)
  end.
  { apply prints_only_bind; [apply prints_only_print | intros _].
    apply prints_only_bind; [apply prints_only_print | intros _].
    apply prints_only_bind; [apply prints_only_call | intros count].
    destruct (0 <? count).
    - apply prints_only_bind; [apply prints_only_call | intros stats].
      apply prints_only_bind; [apply prints_only_print | intros _].
      apply prints_only_bind; [apply prints_only_print | intros _].
      do 4 (apply prints_only_bind;
            [apply prints_only_print_stat | intros _]).
      apply prints_only_bind; [apply prints_only_call | intros histogram].
      apply prints_only_bind; [apply prints_only_print | intros _].
      apply prints_only_bind; [| intros c; apply prints_only_ret].
      destruct (histogram !! "classification") as [[d |] |];
        try apply prints_only_ret.
      case_bool_decide; [| apply prints_only_ret].
      destruct (d !! "histogram") as [items |]; [| apply prints_only_ret].
      intros st'. rewrite histogram_loop_closed. eauto.
    - apply prints_only_bind; [apply prints_only_print | intros _].
      apply prints_only_ret. }
  unfold ui_try. destruct (Hbody st) as (r & lines & ->).
  destruct r as [a | e]; [eauto |].
  unfold ui_bind, ui_print, ui_ret. cbn. eexists _, (lines ++ [_]).
  unfold with_stdout. cbn. now rewrite app_assoc.
Qed.

(** The value of the analysis. *)
Lemma analisis_komprehensif_value g start_date end_date st :
  let filtered := filterDate (hasil_klasifikasi g) start_date end_date in
  fst (analisis_komprehensif filterDate size_getInfo stats_getInfo
         histogram_getInfo g start_date end_date st) =
    Ok match size_getInfo filtered with
       | Ok count =>
           if 0 <? count then
             match stats_getInfo filtered with
             | Ok stats =>
                 if all_printable stats then
                   match histogram_getInfo filtered with
                   | Ok histogram =>
                       Some {| period :=
                                 (start_date ++ " to " ++ end_date)%string;
                               image_count :=
                                 default (inject_Z count)
                                         (last (buckets histogram));
                               statistics := stats;
                               histogram := histogram |}
                   | Raise _ => None
                   end
                 else None
             | Raise _ => None
             end
           else None
       | Raise _ => None
       end.
Proof.
  cbv zeta. unfold analisis_komprehensif, all_printable, printable.
  unfold ui_try, ui_bind at 1 2 3, ui_print at 1 2, ui_call at 1.
  destruct (size_getInfo _) as [count | e]; [| reflexivity].
  destruct (0 <? count); [| reflexivity].
  unfold ui_bind at 1 2 3, ui_call at 1, ui_print at 1 2.
  destruct (stats_getInfo _) as [stats | e]; [| reflexivity].
  unfold ui_bind at 1. rewrite print_stat_run.
  destruct (stats !! "classification_mean") as [[q1 |] |];
    [| reflexivity |];
    (unfold ui_bind at 1; rewrite print_stat_run;
     destruct (stats !! "classification_stdDev") as [[q2 |] |];
       [| reflexivity |]);
    (unfold ui_bind at 1; rewrite print_stat_run;
     destruct (stats !! "classification_min") as [[q3 |] |];
       [| reflexivity |]);
    (unfold ui_bind at 1; rewrite print_stat_run;
     destruct (stats !! "classification_max") as [[q4 |] |];
       [| reflexivity |]);
    cbn [andb];
    unfold ui_bind at 1, ui_call at 1;
    (destruct (histogram_getInfo _) as [histogram | e]; [| reflexivity]);
    unfold ui_bind at 1 2, ui_print at 1, buckets;
    (destruct (histogram !! "classification") as [[d |] |];
       [| reflexivity | reflexivity]);
    (case_bool_decide as Hd;
       [| subst d; rewrite lookup_empty; reflexivity]);
    (destruct (d !! "histogram") as [items |]; [| reflexivity]);
    rewrite histogram_loop_closed; reflexivity.
Qed.

(** X21. When [analisis_komprehensif] returns a dictionary, its
    ['image_count'] is the number of images of the period only if the
    histogram has no bucket: the loop over the histogram rebinds [count],
    so with buckets the entry holds the count of the last bucket. *)
Theorem analisis_komprehensif_image_count
    (g : Globals) (start_date end_date : string) (st : UiState)
    (a : analysis) :
  let filtered := filterDate (hasil_klasifikasi g) start_date end_date in
  fst (analisis_komprehensif filterDate size_getInfo stats_getInfo
         histogram_getInfo g start_date end_date st) = Ok (Some a) ->
  exists count,
    size_getInfo filtered = Ok count /\ 0 < count /\
    histogram_getInfo filtered = Ok (histogram a) /\
    (buckets (histogram a) = [] -> image_count a = inject_Z count) /\
    (forall rest c, buckets (histogram a) = rest ++ [c] ->
       image_count a = c).
Proof.
  intros filtered. rewrite analisis_komprehensif_value. cbv zeta.
  fold filtered. intros Hrun.
  destruct (size_getInfo filtered) as [count | e]; [| discriminate].
  destruct (0 <? count) eqn:Hpos; [| discriminate].
  destruct (stats_getInfo filtered) as [stats | e]; [| discriminate].
  destruct (all_printable stats); [| discriminate].
  destruct (histogram_getInfo filtered) as [h | e]; [| discriminate].
  injection Hrun as <-. cbn. exists count.
  split; [reflexivity |]. split; [now apply Z.ltb_lt |].
  split; [reflexivity |]. split.
  - intros ->. reflexivity.
  - intros rest c ->. now rewrite last_snoc.
Qed.

(** X22. [analisis_komprehensif] never raises and changes nothing but the
    standard output.  It returns [None] unless the period holds images and
    the three remote calls succeed; it returns [None] as well when one of
    the four statistics it prints comes back as [None], because formatting
    that value raises inside the [try]. *)
Theorem analisis_komprehensif_none
    (g : Globals) (start_date end_date : string) (st : UiState) :
  let filtered := filterDate (hasil_klasifikasi g) start_date end_date in
  exists r lines,
    analisis_komprehensif filterDate size_getInfo stats_getInfo
      histogram_getInfo g start_date end_date st
      = (Ok r, with_stdout st lines) /\
    (r <> None <->
       exists count stats histogram,
         size_getInfo filtered = Ok count /\ 0 < count /\
         stats_getInfo filtered = Ok stats /\
         histogram_getInfo filtered = Ok histogram /\
         forall key,
           key ∈ ["classification_mean"; "classification_stdDev";
                  "classification_min"; "classification_max"] ->
           stats !! key <> Some None).
Proof.
  intros filtered.
  destruct (analisis_komprehensif_prints g start_date end_date st)
    as (r & lines & Hrun).
  exists r, lines. split; [exact Hrun |].
  pose proof (analisis_komprehensif_value g start_date end_date st) as Hv.
  cbv zeta in Hv. fold filtered in Hv. rewrite Hrun in Hv. cbn [fst] in Hv.
  injection Hv as ->.
  assert (Hprintable : forall stats,
    all_printable stats = true <->
    forall key,
      key ∈ ["classification_mean"; "classification_stdDev";
             "classification_min"; "classification_max"] ->
      stats !! key <> Some None).
  { intros stats. unfold all_printable, printable.
    rewrite !andb_true_iff. split.
    - intros [[[H1 H2] H3] H4] key Hin Hnone.
      repeat (apply elem_of_cons in Hin as [-> | Hin];
              [rewrite Hnone in *; discriminate |]).
      now apply not_elem_of_nil in Hin.
    - intros Hall.
      assert (Hk : forall key,
        key ∈ ["classification_mean"; "classification_stdDev";
               "classification_min"; "classification_max"] ->
        match stats !! key with Some None => false | _ => true end = true).
      { intros key Hin. specialize (Hall key Hin).
        destruct (stats !! key) as [[q |] |]; congruence. }
      repeat split; apply Hk;
        repeat first [apply list_elem_of_here | apply list_elem_of_further]. }
  split.
  - intros Hsome.
    destruct (size_getInfo filtered) as [count | e]; [| congruence].
    destruct (0 <? count) eqn:Hpos; [| congruence].
    destruct (stats_getInfo filtered) as [stats | e]; [| congruence].
    destruct (all_printable stats) eqn:Hp; [| congruence].
    destruct (histogram_getInfo filtered) as [h | e]; [| congruence].
    exists count, stats, h. apply Z.ltb_lt in Hpos.
    repeat split; try assumption. now apply Hprintable.
  - intros (count & stats & h & -> & Hpos & -> & -> & Hall).
    apply Z.ltb_lt in Hpos. rewrite Hpos.
    apply Hprintable in Hall. rewrite Hall. discriminate.
Qed.

(** ** The exports *)

Lemma export_hasil_klasifikasi_run g start_date end_date scale folder st :
  let filtered := filterDate (hasil_klasifikasi g) start_date end_date in
  let task := export_task_of filtered start_date end_date scale folder in
  export_hasil_klasifikasi filterDate size_getInfo start_error task_status
    g start_date end_date scale folder st =
    match size_getInfo filtered with
    | Raise e =>
        (Ok None,
         with_stdout st [UiExportHeader; UiRule 40; UiExportError e])
    | Ok count =>
        if count =? 0 then
          (Ok None,
           with_stdout st
             [UiExportHeader; UiRule 40;
              UiNothingToExport start_date end_date])
        else
          match start_error task with
          | Some e =>
              (Ok None,
               with_stdout st [UiExportHeader; UiRule 40; UiExportError e])
          | None =>
              match task_status task with
              | Ok status =>
                  (Ok (Some task),
                   with_stdout (with_task st task)
                     [UiExportHeader; UiRule 40; UiExportStarted;
                      UiExportFolder folder;
                      UiExportFilename (description task);
                      UiExportScale scale; UiImageCount count;
                      UiExportStatus status; UiCheckDrive])
              | Raise e =>
                  (Ok None,
                   with_stdout (with_task st task)
                     [UiExportHeader; UiRule 40; UiExportStarted;
                      UiExportFolder folder;
                      UiExportFilename (description task);
                      UiExportScale scale; UiImageCount count;
                      UiExportError e])
              end
          end
    end.
Proof.
  cbv zeta. unfold export_hasil_klasifikasi, export_task_of, start_task.
  ui_unfold. cbn.
  destruct (size_getInfo _) as [count | e];
    [| unfold with_stdout; cbn; now rewrite <- !app_assoc].
  destruct (count =? 0);
    [unfold with_stdout; cbn; now rewrite <- !app_assoc |].
  destruct (start_error _) as [e |];
    [unfold with_stdout; cbn; now rewrite <- !app_assoc |].
  destruct (task_status _) as [status | e];
    unfold with_stdout, with_task; cbn; now rewrite <- !app_assoc.
Qed.

(** X23. [export_hasil_klasifikasi] never raises and leaves the map and the
    output widget alone.  It starts at most one export task, over the
    images of the period, with the scale in its description, in the given
    folder, as GeoTIFF; it starts none for a period without images or when
    the size cannot be read.  A task it returns has been started; but when
    reading the status of the started task fails, the task keeps running
    and the function returns [None]. *)
Theorem export_hasil_klasifikasi_tasks
    (g : Globals) (start_date end_date : string) (scale : Z)
    (folder : string) (st : UiState) :
  let filtered := filterDate (hasil_klasifikasi g) start_date end_date in
  let task := export_task_of filtered start_date end_date scale folder in
  exists r st',
    export_hasil_klasifikasi filterDate size_getInfo start_error task_status
      g start_date end_date scale folder st = (Ok r, st') /\
    Map_layers st' = Map_layers st /\
    widget_lines st' = widget_lines st /\
    (started_tasks st' = started_tasks st \/
     started_tasks st' = started_tasks st ++ [task]) /\
    (size_getInfo filtered = Ok 0 ->
       r = None /\ started_tasks st' = started_tasks st) /\
    (forall e, size_getInfo filtered = Raise e ->
       r = None /\ started_tasks st' = started_tasks st) /\
    (forall t, r = Some t ->
       t = task /\ started_tasks st' = started_tasks st ++ [task]) /\
    (forall count e, size_getInfo filtered = Ok count -> count <> 0 ->
       start_error task = None -> task_status task = Raise e ->
       r = None /\ started_tasks st' = started_tasks st ++ [task]).
Proof.
  intros filtered task. rewrite export_hasil_klasifikasi_run. cbv zeta.
  fold filtered. fold task.
  destruct (size_getInfo filtered) as [count | e];
    [destruct (count =? 0) eqn:Hc;
       [| apply Z.eqb_neq in Hc;
          destruct (start_error task) as [e |] eqn:Hs;
            [| destruct (task_status task) as [status | e] eqn:Ht]] |];
    do 2 eexists; (split; [reflexivity |]); cbn;
    (split; [reflexivity |]); (split; [reflexivity |]);
    (split; [first [now left | now right] |]);
    repeat split; try congruence.
  all: try (apply Z.eqb_eq in Hc; congruence).
Qed.

(** X24. For a period without images the two export functions differ:
    [export_hasil_klasifikasi] reads the size and starts nothing, while
    [export_classification] of the stand-alone script never reads the size
    and starts an export over the empty collection. *)
Theorem export_of_empty_period
    (g : Globals) (start_date end_date : string) (scale : Z)
    (folder : string) (st : UiState) :
  filterDate (hasil_klasifikasi g) start_date end_date = [] ->
  size_getInfo [] = Ok 0 ->
  (forall task, export_images task = [] -> start_error task = None) ->
  started_tasks
    (snd (export_hasil_klasifikasi filterDate size_getInfo start_error
            task_status g start_date end_date scale folder st))
    = started_tasks st /\
  exists task,
    export_images task = [] /\
    description task =
      ("Klasifikasi_Padi_" ++ start_date ++ "_to_" ++ end_date)%string /\
    started_tasks
      (snd (export_classification filterDate start_error
              g start_date end_date scale folder st))
      = started_tasks st ++ [task].
Proof.
  intros Hempty Hsize Hstart. split.
  - rewrite export_hasil_klasifikasi_run. cbv zeta.
    rewrite Hempty, Hsize. reflexivity.
  - exists {| export_images := [];
               description :=
                 ("Klasifikasi_Padi_" ++ start_date ++ "_to_" ++ end_date)
                   %string;
               folder := folder;
               scale := scale;
               export_crs := "EPSG:4326";
               fileFormat := None |}.
    split; [reflexivity |]. split; [reflexivity |].
    unfold export_classification, start_task. ui_unfold. rewrite Hempty.
    rewrite Hstart by reflexivity. reflexivity.
Qed.

End HelperProperties.

Lemma analisis_komprehensif_image_count_witness :
  exists a,
    fst (analisis_komprehensif first_half_2024 count_images stats_contoh
           histogram_contoh dua_citra "2024-01-01" "2024-03-01" ui_kosong)
      = Ok (Some a) /\
    count_images (first_half_2024 (hasil_klasifikasi dua_citra)
                    "2024-01-01" "2024-03-01") = Ok 1 /\
    image_count a = (4 # 1)%Q.
Proof.
  eassert (Hrun :
    fst (analisis_komprehensif first_half_2024 count_images stats_contoh
           histogram_contoh dua_citra "2024-01-01" "2024-03-01" ui_kosong)
      = Ok (Some _)) by (vm_compute; reflexivity).
  destruct (analisis_komprehensif_image_count _ _ _ _ _ _ _ _ _ Hrun)
    as (count & Hcount & _ & _ & _ & Hlast).
  eexists. split; [exact Hrun |]. split; [reflexivity |].
  apply (Hlast [0 # 1; 12 # 1; 7 # 1; 0 # 1; 3 # 1; 0 # 1]%Q).
  reflexivity.
Defined.

Lemma export_of_empty_period_witness :
  started_tasks
    (snd (export_hasil_klasifikasi nothing_in_range count_images starts_fine
            status_ready dua_citra "2025-01-01" "2025-12-31" 10
            "GEE_Export_Padi" ui_kosong)) = [] /\
  exists task,
    started_tasks
      (snd (export_classification nothing_in_range starts_fine
              dua_citra "2025-01-01" "2025-12-31" 10 "GEE_Export"
              ui_kosong)) = [task].
Proof.
  destruct (export_of_empty_period nothing_in_range count_images starts_fine
              status_ready dua_citra "2025-01-01" "2025-12-31" 10
              "GEE_Export_Padi" ui_kosong eq_refl eq_refl
              (fun _ _ => eq_refl)) as [Hnone _].
  destruct (export_of_empty_period nothing_in_range count_images starts_fine
              status_ready dua_citra "2025-01-01" "2025-12-31" 10
              "GEE_Export" ui_kosong eq_refl eq_refl (fun _ _ => eq_refl))
    as [_ (task & _ & _ & Hone)].
  split; [exact Hnone |]. exists task. exact Hone.
Defined.

